(** * KPI development service: attachment lifecycle and analytics

    A shallow embedding of the Go packages [models], [repositories],
    [services] and of the transfer handler of [handlers], together with
    the properties of the attachment coordinator (upload, delete,
    transfer), of the update path and of the performance aggregation.

    Conventions of the embedding.
    - [primitive.ObjectID] (12 bytes) is the number the bytes denote.
    - [time.Time] is a number of milliseconds since the Unix epoch, the
      precision BSON keeps.
    - A Go [error] is its message; [nil] is [None]; a result [(T, error)]
      is a sum [T + string].
    - The MongoDB collection and the GridFS bucket are finite maps held
      in a [World]; every repository method is a state transformer over
      it that also emits the [Event] of the call with its outcome.
    - A driver call can fail for reasons outside the program (network,
      time-out): the world carries the list of such failures, consumed
      one entry per driver call; a failed driver call has no effect.
    - The [fmt.Printf] narration of the services writes to standard
      output only and is left out. *)

From Stdlib Require Import ZArith QArith List String Ascii Permutation Sorted Lia.
From stdpp Require Import base gmap list strings sorting.

Local Close Scope Q_scope.
Local Open Scope string_scope.
Local Open Scope Z_scope.
Local Open Scope list_scope.

(** ** primitive.ObjectID *)

Abbreviation ObjectID := N.

Definition hex_digit (d : N) : ascii :=
  match d with
  | 0 => "0" | 1 => "1" | 2 => "2" | 3 => "3" | 4 => "4" | 5 => "5"
  | 6 => "6" | 7 => "7" | 8 => "8" | 9 => "9" | 10 => "a" | 11 => "b"
  | 12 => "c" | 13 => "d" | 14 => "e" | _ => "f"
  end%N%char.

Fixpoint hex_digits (n : nat) (x : N) (acc : string) : string :=
  match n with
  | O => acc
  | S n' => hex_digits n' (x / 16)%N (String (hex_digit (x mod 16)%N) acc)
  end.

(** [id.Hex()]: 24 lower-case hexadecimal digits. *)
Definition Hex (id : ObjectID) : string := hex_digits 24 id "".

Definition from_hex_char (c : ascii) : option N :=
  let n := N_of_ascii c in
  if ((48 <=? n) && (n <=? 57))%N then Some (n - 48)%N
  else if ((97 <=? n) && (n <=? 102))%N then Some (n - 87)%N
  else if ((65 <=? n) && (n <=? 70))%N then Some (n - 55)%N
  else None.

Fixpoint decode_hex (s : string) (acc : N) : option N :=
  match s with
  | EmptyString => Some acc
  | String c s' =>
      match from_hex_char c with
      | Some d => decode_hex s' (16 * acc + d)%N
      | None => None
      end
  end.

(** [primitive.ObjectIDFromHex]: exactly 24 hexadecimal digits. *)
Definition ObjectIDFromHex (s : string) : option ObjectID :=
  if Nat.eqb (String.length s) 24 then decode_hex s 0%N else None.

(** ** time.Time *)

Abbreviation Time := Z.

(** The zero [time.Time] is January 1, year 1, 00:00 UTC. *)
Definition zeroTime : Time := -62135596800000.

Definition IsZero (t : Time) : bool := (t =? zeroTime)%Z.

(** ** package models *)

Record Attachment := {
  FileID : ObjectID;
  Filename : string
}.

Record Metadata := {
  CreatedBy : string;
  UpdatedBy : string;
  CreatedAt : Time;
  UpdatedAt : Time
}.

Record KPIDevelopment := {
  ID : ObjectID;
  Goal : string;
  Description : string;
  DueDate : Time;
  ActualPercent : Z;
  Attachments : list Attachment;
  IsDeleted : bool;
  KPIMetadata : Metadata
}.

(** Field assignments of the Go code, written as functional updates. *)
Definition set_updated (by_ : string) (at_ : Time) (m : Metadata) : Metadata :=
  {| CreatedBy := CreatedBy m; UpdatedBy := by_;
     CreatedAt := CreatedAt m; UpdatedAt := at_ |}.

Definition set_Goal (v : string) (k : KPIDevelopment) : KPIDevelopment :=
  {| ID := ID k; Goal := v; Description := Description k; DueDate := DueDate k;
     ActualPercent := ActualPercent k; Attachments := Attachments k;
     IsDeleted := IsDeleted k; KPIMetadata := KPIMetadata k |}.

Definition set_Description (v : string) (k : KPIDevelopment) : KPIDevelopment :=
  {| ID := ID k; Goal := Goal k; Description := v; DueDate := DueDate k;
     ActualPercent := ActualPercent k; Attachments := Attachments k;
     IsDeleted := IsDeleted k; KPIMetadata := KPIMetadata k |}.

Definition set_DueDate (v : Time) (k : KPIDevelopment) : KPIDevelopment :=
  {| ID := ID k; Goal := Goal k; Description := Description k; DueDate := v;
     ActualPercent := ActualPercent k; Attachments := Attachments k;
     IsDeleted := IsDeleted k; KPIMetadata := KPIMetadata k |}.

Definition set_ActualPercent (v : Z) (k : KPIDevelopment) : KPIDevelopment :=
  {| ID := ID k; Goal := Goal k; Description := Description k; DueDate := DueDate k;
     ActualPercent := v; Attachments := Attachments k;
     IsDeleted := IsDeleted k; KPIMetadata := KPIMetadata k |}.

Definition set_Attachments (v : list Attachment) (k : KPIDevelopment) : KPIDevelopment :=
  {| ID := ID k; Goal := Goal k; Description := Description k; DueDate := DueDate k;
     ActualPercent := ActualPercent k; Attachments := v;
     IsDeleted := IsDeleted k; KPIMetadata := KPIMetadata k |}.

Definition set_IsDeleted (v : bool) (k : KPIDevelopment) : KPIDevelopment :=
  {| ID := ID k; Goal := Goal k; Description := Description k; DueDate := DueDate k;
     ActualPercent := ActualPercent k; Attachments := Attachments k;
     IsDeleted := v; KPIMetadata := KPIMetadata k |}.

Definition set_Metadata (v : Metadata) (k : KPIDevelopment) : KPIDevelopment :=
  {| ID := ID k; Goal := Goal k; Description := Description k; DueDate := DueDate k;
     ActualPercent := ActualPercent k; Attachments := Attachments k;
     IsDeleted := IsDeleted k; KPIMetadata := v |}.

(** ** The two stores *)

(** A GridFS file: name, bytes and the metadata document of the upload. *)
Record GridFile := {
  gf_filename : string;
  gf_data : string;
  gf_uploadedBy : string;
  gf_uploadedAt : Time;
  gf_contentType : string
}.

Record World := {
  collection : gmap N KPIDevelopment;      (* kpi_developments, committed *)
  txn : option (gmap N KPIDevelopment);    (* working copy of the open transaction *)
  bucket : gmap N GridFile;                (* fs.files with fs.chunks *)
  next_oid : ObjectID;                     (* supply of primitive.NewObjectID *)
  clock : Time;                            (* time.Now *)
  faults : list (option string)            (* outcome of the coming driver calls *)
}.

Definition with_collection (m : gmap N KPIDevelopment) (w : World) : World :=
  {| collection := m; txn := txn w; bucket := bucket w;
     next_oid := next_oid w; clock := clock w; faults := faults w |}.

Definition with_txn (t : option (gmap N KPIDevelopment)) (w : World) : World :=
  {| collection := collection w; txn := t; bucket := bucket w;
     next_oid := next_oid w; clock := clock w; faults := faults w |}.

Definition with_bucket (b : gmap N GridFile) (w : World) : World :=
  {| collection := collection w; txn := txn w; bucket := b;
     next_oid := next_oid w; clock := clock w; faults := faults w |}.

Definition with_next_oid (n : ObjectID) (w : World) : World :=
  {| collection := collection w; txn := txn w; bucket := bucket w;
     next_oid := n; clock := clock w; faults := faults w |}.

Definition with_clock (c : Time) (w : World) : World :=
  {| collection := collection w; txn := txn w; bucket := bucket w;
     next_oid := next_oid w; clock := c; faults := faults w |}.

Definition with_faults (f : list (option string)) (w : World) : World :=
  {| collection := collection w; txn := txn w; bucket := bucket w;
     next_oid := next_oid w; clock := clock w; faults := f |}.

(** The context a repository method is called with: a plain context, or
    the session context of the transfer. *)
Inductive Ctx := Background | SessionCtx.

(** One event per call into the stores, with its outcome. *)
Inductive Event :=
| EvCreate (id : ObjectID) (err : option string)
| EvGetByID (c : Ctx) (id : ObjectID) (err : option string)
| EvUpdate (id : ObjectID) (err : option string)
| EvSoftDelete (id : ObjectID) (err : option string)
| EvUploadFile (filename : string) (res : ObjectID + string)
| EvDownloadFile (fileID : ObjectID) (err : option string)
| EvDeleteFile (fileID : ObjectID) (err : option string)
| EvAddAttachment (c : Ctx) (id : ObjectID) (a : Attachment) (err : option string)
| EvRemoveAttachment (c : Ctx) (id fileID : ObjectID) (err : option string)
| EvAggregate (err : option string)
| EvStartSession (err : option string)
| EvStartTransaction (err : option string)
| EvCommitTransaction (err : option string)
| EvAbortTransaction (err : option string)
| EvEndSession.

(** ** The monad of store operations: state and trace *)

Definition M (A : Type) : Type := World -> A * World * list Event.

Definition ret {A} (a : A) : M A := fun w => (a, w, []).

Definition bind {A B} (m : M A) (k : A -> M B) : M B :=
  fun w =>
    let '(a, w1, t1) := m w in
    let '(b, w2, t2) := k a w1 in
    (b, w2, t1 ++ t2).

Notation "x <- m ;; k" := (bind m (fun x => k))
  (at level 100, m at next level, right associativity).
Notation "m ;;; k" := (bind m (fun _ => k))
  (at level 100, right associativity).

Definition emit (e : Event) : M unit := fun w => (tt, w, [e]).

Definition value {A} (r : A * World * list Event) : A := fst (fst r).
Definition final {A} (r : A * World * list Event) : World := snd (fst r).
Definition trace {A} (r : A * World * list Event) : list Event := snd r.

(** The outcome the driver reports for the next call: [Some e] when the
    call fails for a reason of the infrastructure. *)
Definition driver_call : M (option string) :=
  fun w =>
    match faults w with
    | [] => (None, w, [])
    | f :: fs => (f, with_faults fs w, [])
    end.

(** [time.Now()] *)
Definition Now : M Time :=
  fun w => (clock w, with_clock (clock w + 1) w, []).

(** [primitive.NewObjectID()] *)
Definition NewObjectID : M ObjectID :=
  fun w => (next_oid w, with_next_oid (next_oid w + 1)%N w, []).

(** ** The driver: collection and bucket operations *)

(** The documents an operation sees: inside the session, the working
    copy of its open transaction. *)
Definition view (c : Ctx) (w : World) : gmap N KPIDevelopment :=
  match c, txn w with
  | SessionCtx, Some m => m
  | _, _ => collection w
  end.

Definition store (c : Ctx) (m : gmap N KPIDevelopment) (w : World) : World :=
  match c, txn w with
  | SessionCtx, Some _ => with_txn (Some m) w
  | _, _ => with_collection m w
  end.

Definition ErrNoDocuments : string := "mongo: no documents in result".
Definition ErrFileNotFound : string := "file with given parameters not found".

(** [collection.FindOne(ctx, bson.M{"_id": id}).Decode(&kpi)] *)
Definition FindOne (c : Ctx) (id : ObjectID) : M (KPIDevelopment + string) :=
  f <- driver_call ;;
  match f with
  | Some e => ret (inr e)
  | None => fun w =>
      match view c w !! id with
      | Some k => (inl k, w, [])
      | None => (inr ErrNoDocuments, w, [])
      end
  end.

(** [collection.UpdateOne(ctx, filter, update)]: the filter is [_id] and
    a predicate on the document; the result is [MatchedCount]. *)
Definition UpdateOne (c : Ctx) (id : ObjectID) (filter : KPIDevelopment -> bool)
    (update : KPIDevelopment -> KPIDevelopment) : M (Z + string) :=
  f <- driver_call ;;
  match f with
  | Some e => ret (inr e)
  | None => fun w =>
      match view c w !! id with
      | Some k =>
          if filter k then (inl 1, store c (<[id := update k]> (view c w)) w, [])
          else (inl 0, w, [])
      | None => (inl 0, w, [])
      end
  end.

(** [collection.InsertOne(ctx, kpi)] *)
Definition InsertOne (kpi : KPIDevelopment) : M (option string) :=
  f <- driver_call ;;
  match f with
  | Some e => ret (Some e)
  | None => fun w =>
      (None, with_collection (<[ID kpi := kpi]> (collection w)) w, [])
  end.

(** [bucket.UploadFromStream(filename, fileData, uploadOpts)] *)
Definition UploadFromStream (filename data uploadedBy : string) (uploadedAt : Time)
    (contentType : string) : M (ObjectID + string) :=
  f <- driver_call ;;
  match f with
  | Some e => ret (inr e)
  | None =>
      fileID <- NewObjectID ;;
      fun w =>
        (inl fileID,
         with_bucket (<[fileID := {| gf_filename := filename; gf_data := data;
                                     gf_uploadedBy := uploadedBy;
                                     gf_uploadedAt := uploadedAt;
                                     gf_contentType := contentType |}]> (bucket w)) w,
         [])
  end.

(** [bucket.OpenDownloadStream(fileID)] *)
Definition OpenDownloadStream (fileID : ObjectID) : M (GridFile + string) :=
  f <- driver_call ;;
  match f with
  | Some e => ret (inr e)
  | None => fun w =>
      match bucket w !! fileID with
      | Some g => (inl g, w, [])
      | None => (inr ErrFileNotFound, w, [])
      end
  end.

(** [bucket.Delete(fileID)] *)
Definition BucketDelete (fileID : ObjectID) : M (option string) :=
  f <- driver_call ;;
  match f with
  | Some e => ret (Some e)
  | None => fun w =>
      match bucket w !! fileID with
      | Some _ => (None, with_bucket (delete fileID (bucket w)) w, [])
      | None => (Some ErrFileNotFound, w, [])
      end
  end.

(** A new session has no transaction; ending a session aborts the
    transaction it still has. *)
Definition StartSession : M (option string) :=
  f <- driver_call ;;
  match f with
  | Some e => emit (EvStartSession (Some e)) ;;; ret (Some e)
  | None => fun w => (None, with_txn None w, [EvStartSession None])
  end.

Definition EndSession : M unit :=
  fun w => (tt, with_txn None w, [EvEndSession]).

Definition StartTransaction : M (option string) :=
  f <- driver_call ;;
  match f with
  | Some e => emit (EvStartTransaction (Some e)) ;;; ret (Some e)
  | None => fun w => (None, with_txn (Some (collection w)) w, [EvStartTransaction None])
  end.

Definition CommitTransaction : M (option string) :=
  f <- driver_call ;;
  match f with
  | Some e => emit (EvCommitTransaction (Some e)) ;;; ret (Some e)
  | None => fun w =>
      match txn w with
      | Some m => (None, with_txn None (with_collection m w), [EvCommitTransaction None])
      | None => (Some "no transaction started", w,
                 [EvCommitTransaction (Some "no transaction started")])
      end
  end.

Definition AbortTransaction : M (option string) :=
  f <- driver_call ;;
  match f with
  | Some e => emit (EvAbortTransaction (Some e)) ;;; ret (Some e)
  | None => fun w => (None, with_txn None w, [EvAbortTransaction None])
  end.

(** ** package repository *)

Module repository.

Definition err_of {A} (r : A + string) : option string :=
  match r with inl _ => None | inr e => Some e end.

Definition Create (kpi : KPIDevelopment) : M (KPIDevelopment * option string) :=
  id <- NewObjectID ;;
  let kpi := {| ID := id; Goal := Goal kpi; Description := Description kpi;
                DueDate := DueDate kpi; ActualPercent := ActualPercent kpi;
                Attachments := Attachments kpi; IsDeleted := IsDeleted kpi;
                KPIMetadata := KPIMetadata kpi |} in
  err <- InsertOne kpi ;;
  emit (EvCreate id err) ;;;
  ret (kpi, err).

Definition GetByID (c : Ctx) (id : ObjectID) : M (KPIDevelopment + string) :=
  r <- FindOne c id ;;
  emit (EvGetByID c id (err_of r)) ;;;
  ret r.

Definition Update (c : Ctx) (id : ObjectID) (kpi : KPIDevelopment) : M (option string) :=
  result <- UpdateOne c id (fun _ => true) (fun _ => kpi) ;;
  let err :=
    match result with
    | inr e => Some e
    | inl MatchedCount =>
        if (MatchedCount =? 0)%Z then Some ("no document found with id " +:+ Hex id)
        else None
    end in
  emit (EvUpdate id err) ;;;
  ret err.

Definition SoftDelete (c : Ctx) (id : ObjectID) (updatedBy : string) : M (option string) :=
  now <- Now ;;
  result <- UpdateOne c id (fun k => negb (IsDeleted k))
              (fun k => set_Metadata (set_updated updatedBy now (KPIMetadata k))
                          (set_IsDeleted true k)) ;;
  let err :=
    match result with
    | inr e => Some e
    | inl MatchedCount =>
        if (MatchedCount =? 0)%Z
        then Some ("no document found with id " +:+ Hex id +:+ " or already deleted")
        else None
    end in
  emit (EvSoftDelete id err) ;;;
  ret err.

Definition UploadFile (filename data uploadedBy contentType : string)
  : M (ObjectID + string) :=
  now <- Now ;;
  r <- UploadFromStream filename data uploadedBy now contentType ;;
  let res :=
    match r with
    | inr e => inr ("failed to upload file to GridFS: " +:+ e)
    | inl fileID => inl fileID
    end in
  emit (EvUploadFile filename res) ;;;
  ret res.

Definition DownloadFile (fileID : ObjectID) : M (GridFile + string) :=
  r <- OpenDownloadStream fileID ;;
  let res :=
    match r with
    | inr e => inr ("failed to download file from GridFS: " +:+ e)
    | inl g => inl g
    end in
  emit (EvDownloadFile fileID (err_of res)) ;;;
  ret res.

Definition DeleteFile (fileID : ObjectID) : M (option string) :=
  err <- BucketDelete fileID ;;
  emit (EvDeleteFile fileID err) ;;;
  ret err.

(** [$push] appends at the end of the array; [$pull] removes every
    element whose [file_id] matches. *)
Definition push (a : Attachment) (k : KPIDevelopment) : KPIDevelopment :=
  set_Attachments (Attachments k ++ [a]) k.

Definition pull (fileID : ObjectID) (k : KPIDevelopment) : KPIDevelopment :=
  set_Attachments (filter (fun a => FileID a <> fileID) (Attachments k)) k.

Definition touch (updatedBy : string) (now : Time) (k : KPIDevelopment) : KPIDevelopment :=
  set_Metadata (set_updated updatedBy now (KPIMetadata k)) k.

Definition AddAttachment (c : Ctx) (kpiID : ObjectID) (attachment : Attachment)
    (updatedBy : string) : M (option string) :=
  now <- Now ;;
  result <- UpdateOne c kpiID (fun k => negb (IsDeleted k))
              (fun k => touch updatedBy now (push attachment k)) ;;
  let err :=
    match result with
    | inr e => Some e
    | inl MatchedCount =>
        if (MatchedCount =? 0)%Z then Some ("no document found with id " +:+ Hex kpiID)
        else None
    end in
  emit (EvAddAttachment c kpiID attachment err) ;;;
  ret err.

Definition RemoveAttachment (c : Ctx) (kpiID fileID : ObjectID)
    (updatedBy : string) : M (option string) :=
  now <- Now ;;
  result <- UpdateOne c kpiID (fun k => negb (IsDeleted k))
              (fun k => touch updatedBy now (pull fileID k)) ;;
  let err :=
    match result with
    | inr e => Some e
    | inl MatchedCount =>
        if (MatchedCount =? 0)%Z then Some ("no document found with id " +:+ Hex kpiID)
        else None
    end in
  emit (EvRemoveAttachment c kpiID fileID err) ;;;
  ret err.

(** [collection.Find(ctx, bson.M{})] followed by [cursor.All]: every
    document of the collection, with no condition on [is_deleted].  The
    listing leaves no event. *)
Definition GetAll : M (list KPIDevelopment + string) :=
  f <- driver_call ;;
  match f with
  | Some e => ret (inr e)
  | None =>
      g <- driver_call ;;
      match g with
      | Some e => ret (inr e)
      | None => fun w => (inl (map snd (map_to_list (collection w))), w, [])
      end
  end.

End repository.

(** ** package services *)

Module services.

(** A nil slice and an empty one are the same list here, so the
    initialisation of [kpi.Attachments] changes nothing. *)
Definition CreateKPI (kpi : KPIDevelopment) : M (KPIDevelopment + string) :=
  now <- Now ;;
  let kpi :=
    set_IsDeleted false
      (set_Metadata {| CreatedBy := CreatedBy (KPIMetadata kpi);
                       UpdatedBy := UpdatedBy (KPIMetadata kpi);
                       CreatedAt := now; UpdatedAt := now |} kpi) in
  r <- repository.Create kpi ;;
  match snd r with
  | Some err => ret (inr err)
  | None => ret (inl (fst r))
  end.

Definition GetKPIByID (id : ObjectID) : M (KPIDevelopment + string) :=
  repository.GetByID Background id.

Definition UpdateKPI (id : ObjectID) (kpi : KPIDevelopment)
  : M (KPIDevelopment + string) :=
  r <- repository.GetByID Background id ;;
  match r with
  | inr err => ret (inr err)
  | inl existingKPI =>
      (* Update fields if provided *)
      let existingKPI :=
        if negb (String.eqb (Goal kpi) "") then set_Goal (Goal kpi) existingKPI
        else existingKPI in
      let existingKPI :=
        if negb (String.eqb (Description kpi) "")
        then set_Description (Description kpi) existingKPI
        else existingKPI in
      let existingKPI :=
        if negb (IsZero (DueDate kpi)) then set_DueDate (DueDate kpi) existingKPI
        else existingKPI in
      let existingKPI := set_ActualPercent (ActualPercent kpi) existingKPI in
      now <- Now ;;
      let existingKPI :=
        set_Metadata (set_updated (UpdatedBy (KPIMetadata kpi)) now
                        (KPIMetadata existingKPI)) existingKPI in
      err <- repository.Update Background id existingKPI ;;
      match err with
      | Some e => ret (inr e)
      | None => ret (inl existingKPI)
      end
  end.

Definition SoftDeleteKPI (id : ObjectID) (updatedBy : string) : M (option string) :=
  repository.SoftDelete Background id updatedBy.

Definition UploadAttachment (kpiID : ObjectID) (filename fileData updatedBy contentType : string)
  : M (Attachment + string) :=
  (* First: Verify that the KPI exists *)
  r <- repository.GetByID Background kpiID ;;
  match r with
  | inr err => ret (inr ("KPI not found: " +:+ err))
  | inl _ =>
      (* Second: Upload file to GridFS *)
      u <- repository.UploadFile filename fileData updatedBy contentType ;;
      match u with
      | inr err => ret (inr ("failed to upload file: " +:+ err))
      | inl fileID =>
          let attachment := {| FileID := fileID; Filename := filename |} in
          (* Third: Add attachment to KPI document *)
          err <- repository.AddAttachment Background kpiID attachment updatedBy ;;
          match err with
          | Some err =>
              (* CLEANUP: Delete the uploaded file since adding attachment failed;
                 the outcome of the cleanup is only printed *)
              cleanupErr <- repository.DeleteFile fileID ;;
              ret (inr ("failed to add attachment to KPI: " +:+ err))
          | None => ret (inl attachment)
          end
      end
  end.

Definition DownloadAttachment (fileID : ObjectID) : M (GridFile + string) :=
  repository.DownloadFile fileID.

(** The loop over [kpi.Attachments] that stops at the first entry with
    the given file id: [(attachmentExists, attachmentFilename)]. *)
Fixpoint scan_attachments (fileID : ObjectID) (l : list Attachment) : bool * string :=
  match l with
  | [] => (false, "")
  | attachment :: l' =>
      if N.eqb (FileID attachment) fileID then (true, Filename attachment)
      else scan_attachments fileID l'
  end.

Definition DeleteAttachment (kpiID fileID : ObjectID) (updatedBy : string)
  : M (option string) :=
  (* First: Verify that the KPI exists and has the attachment *)
  r <- repository.GetByID Background kpiID ;;
  match r with
  | inr err => ret (Some ("KPI not found: " +:+ err))
  | inl kpi =>
      let '(attachmentExists, attachmentFilename) :=
        scan_attachments fileID (Attachments kpi) in
      if negb attachmentExists then
        ret (Some ("attachment with file_id " +:+ Hex fileID +:+
                   " not found in KPI " +:+ Hex kpiID))
      else
        (* Second: Remove attachment from KPI document first *)
        err <- repository.RemoveAttachment Background kpiID fileID updatedBy ;;
        match err with
        | Some err => ret (Some ("failed to remove attachment from KPI: " +:+ err))
        | None =>
            (* Third: Delete file from GridFS *)
            err <- repository.DeleteFile fileID ;;
            match err with
            | Some err =>
                (* ROLLBACK: Re-add attachment to KPI since file deletion failed *)
                let attachment := {| FileID := fileID; Filename := attachmentFilename |} in
                rollbackErr <- repository.AddAttachment Background kpiID attachment updatedBy ;;
                match rollbackErr with
                | Some rollbackErr =>
                    ret (Some ("failed to delete file from GridFS and rollback failed: "
                               +:+ rollbackErr +:+ " (original error: " +:+ err +:+ ")"))
                | None => ret (Some ("failed to delete file from GridFS: " +:+ err))
                end
            | None => ret None
            end
        end
  end.

(** The loop over [fromKPI.Attachments] of the transfer. *)
Fixpoint find_attachment (fileID : ObjectID) (l : list Attachment) : option Attachment :=
  match l with
  | [] => None
  | attachment :: l' =>
      if N.eqb (FileID attachment) fileID then Some attachment
      else find_attachment fileID l'
  end.

(** The part of the transfer that runs between [StartSession] and the
    deferred [EndSession]. *)
Definition transfer_in_session (fromKPIID toKPIID fileID : ObjectID) (updatedBy : string)
  : M (option string) :=
  err <- StartTransaction ;;
  match err with
  | Some err => ret (Some ("failed to start transaction: " +:+ err))
  | None =>
      (* Step 1: Verify both KPIs exist *)
      r <- repository.GetByID SessionCtx fromKPIID ;;
      match r with
      | inr err =>
          AbortTransaction ;;; ret (Some ("source KPI not found: " +:+ err))
      | inl fromKPI =>
          r <- repository.GetByID SessionCtx toKPIID ;;
          match r with
          | inr err =>
              AbortTransaction ;;; ret (Some ("destination KPI not found: " +:+ err))
          | inl toKPI =>
              (* Step 2: Find the attachment in the source KPI *)
              match find_attachment fileID (Attachments fromKPI) with
              | None =>
                  AbortTransaction ;;;
                  ret (Some ("attachment with file_id " +:+ Hex fileID +:+
                             " not found in source KPI"))
              | Some attachmentToTransfer =>
                  (* Step 3: Remove attachment from source KPI *)
                  err <- repository.RemoveAttachment SessionCtx fromKPIID fileID updatedBy ;;
                  match err with
                  | Some err =>
                      AbortTransaction ;;;
                      ret (Some ("failed to remove attachment from source KPI: " +:+ err))
                  | None =>
                      (* Step 4: Add attachment to destination KPI *)
                      err <- repository.AddAttachment SessionCtx toKPIID
                               attachmentToTransfer updatedBy ;;
                      match err with
                      | Some err =>
                          AbortTransaction ;;;
                          ret (Some ("failed to add attachment to destination KPI: "
                                     +:+ err))
                      | None =>
                          (* Step 5: Commit transaction *)
                          err <- CommitTransaction ;;
                          match err with
                          | Some err =>
                              AbortTransaction ;;;
                              ret (Some ("failed to commit transaction: " +:+ err))
                          | None => ret None
                          end
                      end
                  end
              end
          end
      end
  end.

Definition TransferAttachmentBetweenKPIs (fromKPIID toKPIID fileID : ObjectID)
    (updatedBy : string) : M (option string) :=
  (* Start a session for transaction *)
  err <- StartSession ;;
  match err with
  | Some err => ret (Some ("failed to start session: " +:+ err))
  | None =>
      r <- transfer_in_session fromKPIID toKPIID fileID updatedBy ;;
      EndSession ;;;            (* defer session.EndSession(transactionCtx) *)
      ret r
  end.

Definition GetAllKPIs : M (list KPIDevelopment + string) :=
  repository.GetAll.

End services.

(** ** The aggregation pipeline of GetKPIPerformanceStats *)

Module analytics.

(** [$switch]: the first branch whose case holds, else the default. *)
Fixpoint switch (branches : list (bool * string)) (default : string) : string :=
  match branches with
  | [] => default
  | (case, then_) :: rest => if case then then_ else switch rest default
  end.

(** The computed fields of [$addFields]. *)
Definition status (k : KPIDevelopment) : string :=
  switch [ (ActualPercent k >=? 100, "Completed");
           (ActualPercent k >=? 50, "On Track");
           (ActualPercent k >=? 25, "At Risk");
           (ActualPercent k >=? 1, "Behind");
           (ActualPercent k =? 0, "Not Started") ]
         "Not Started".

(** Milliseconds converted to days; the quotient is kept exact. *)
Definition days_until_due (now : Time) (k : KPIDevelopment) : Q :=
  Qmake (DueDate k - now) (1000 * 60 * 60 * 24).

(** [$size] of the array; a stored record always has the array, since
    [CreateKPI] never stores a nil slice. *)
Definition attachments_count (k : KPIDevelopment) : Z :=
  Z.of_nat (length (Attachments k)).

(** [$match {is_deleted: {$ne: true}}] *)
Definition match_stage (docs : list KPIDevelopment) : list KPIDevelopment :=
  filter (fun k => IsDeleted k <> true) docs.

(** The accumulators of one [$group] key. *)
Record Group := {
  g_id : string;
  g_count : Z;
  g_sum_percent : Z;
  g_total_attachments : Z;
  g_sum_days : Q
}.

Fixpoint group_add (now : Time) (k : KPIDevelopment) (gs : list Group) : list Group :=
  match gs with
  | [] =>
      [ {| g_id := status k; g_count := 1; g_sum_percent := ActualPercent k;
           g_total_attachments := attachments_count k;
           g_sum_days := days_until_due now k |} ]
  | g :: gs' =>
      if String.eqb (g_id g) (status k) then
        {| g_id := g_id g; g_count := g_count g + 1;
           g_sum_percent := g_sum_percent g + ActualPercent k;
           g_total_attachments := g_total_attachments g + attachments_count k;
           g_sum_days := Qplus (g_sum_days g) (days_until_due now k) |} :: gs'
      else g :: group_add now k gs'
  end.

Definition group_stage (now : Time) (docs : list KPIDevelopment) : list Group :=
  fold_left (fun gs k => group_add now k gs) docs [].

(** One output document; the averages are exact rationals in lowest
    terms. *)
Record Bucket := {
  id_ : string;
  count : Z;
  avg_completion : Q;
  total_attachments : Z;
  avg_days_until_due : Q
}.

Definition finish (g : Group) : Bucket :=
  {| id_ := g_id g;
     count := g_count g;
     avg_completion := Qred (Qmake (g_sum_percent g) (Z.to_pos (g_count g)));
     total_attachments := g_total_attachments g;
     avg_days_until_due :=
       Qred (Qdiv (g_sum_days g) (inject_Z (g_count g))) |}.

(** [$sort {count: -1}] *)
Definition by_count_desc (a b : Bucket) : Prop := count b <= count a.

#[global] Instance by_count_desc_dec : RelDecision by_count_desc :=
  fun a b => decide (count b <= count a).

Definition sort_stage (bs : list Bucket) : list Bucket := merge_sort by_count_desc bs.

(** [$match], [$addFields], [$group], [$sort].  The order in which
    [$group] hands over its groups is the server's: [group_order]. *)
Definition pipeline (group_order : list Bucket -> list Bucket) (now : Time)
    (docs : list KPIDevelopment) : list Bucket :=
  sort_stage (group_order (map finish (group_stage now (match_stage docs)))).

Definition GetKPIPerformanceStats (group_order : list Bucket -> list Bucket)
  : M (list Bucket + string) :=
  f <- driver_call ;;
  match f with
  | Some e => emit (EvAggregate (Some e)) ;;; ret (inr e)
  | None => fun w =>
      (inl (pipeline group_order (clock w) (map snd (map_to_list (collection w)))),
       w, [EvAggregate None])
  end.

(** The three fields the specification's example shows. *)
Definition summary (b : Bucket) : string * Z * Q :=
  (id_ b, count b, avg_completion b).

End analytics.

(** ** package handlers *)

Module handlers.

(** The body of the request, when it decodes. *)
Record transferRequest := {
  FromKPIID : string;
  ToKPIID : string;
  ReqFileID : string
}.

(** What the handler writes: a message, the map of validation errors,
    or the data of a success. *)
Inductive Response :=
| MessageResponse (StatusCode : Z) (Message : string)
| ValidationResponse (StatusCode : Z) (Errors : list (string * string))
| DataResponse (StatusCode : Z) (Message : string)
    (Data : list (string * (string + Time))).

Definition StatusCode (r : Response) : Z :=
  match r with
  | MessageResponse c _ | ValidationResponse c _ | DataResponse c _ _ => c
  end.

Definition StatusBadRequest : Z := 400.
Definition StatusInternalServerError : Z := 500.
Definition StatusOK : Z := 200.

(** The [validate:"required"] tags of the request: a field fails when it
    is the empty string. *)
Definition required (field value : string) : list (string * string) :=
  if String.eqb value "" then [(field, "required")] else [].

Definition Validate (t : transferRequest) : list (string * string) :=
  required "FromKPIID" (FromKPIID t) ++ required "ToKPIID" (ToKPIID t)
  ++ required "FileID" (ReqFileID t).

(** [utils.DecodeAndValidate]: [body] is the outcome of the JSON
    decoder, its error or the decoded request. *)
Definition DecodeAndValidate (body : string + transferRequest)
  : Response + transferRequest :=
  match body with
  | inl err => inl (MessageResponse StatusBadRequest err)
  | inr t =>
      match Validate t with
      | [] => inr t
      | errorMessages => inl (ValidationResponse StatusBadRequest errorMessages)
      end
  end.

Definition TransferAttachment (body : string + transferRequest) (username : string)
  : M Response :=
  match DecodeAndValidate body with
  | inl resp => ret resp
  | inr transferRequest =>
      (* Convert string IDs to ObjectIDs *)
      match ObjectIDFromHex (FromKPIID transferRequest) with
      | None => ret (MessageResponse StatusBadRequest "Invalid from_kpi_id format")
      | Some fromKPIID =>
          match ObjectIDFromHex (ToKPIID transferRequest) with
          | None => ret (MessageResponse StatusBadRequest "Invalid to_kpi_id format")
          | Some toKPIID =>
              match ObjectIDFromHex (ReqFileID transferRequest) with
              | None => ret (MessageResponse StatusBadRequest "Invalid file_id format")
              | Some fileID =>
                  (* Validate that source and destination are different *)
                  if N.eqb fromKPIID toKPIID then
                    ret (MessageResponse StatusBadRequest
                           "Source and destination KPI cannot be the same")
                  else
                    err <- services.TransferAttachmentBetweenKPIs
                             fromKPIID toKPIID fileID username ;;
                    match err with
                    | Some err => ret (MessageResponse StatusInternalServerError err)
                    | None =>
                        now <- Now ;;
                        ret (DataResponse StatusOK "Attachment transferred successfully"
                               [("from_kpi_id", inl (Hex fromKPIID));
                                ("to_kpi_id", inl (Hex toKPIID));
                                ("file_id", inl (Hex fileID));
                                ("transferred_at", inr now)])
                    end
              end
          end
      end
  end.

(** *** The other end points *)

(** The data of a successful answer. *)
Inductive Payload :=
| KPIData (kpi : KPIDevelopment)
| KPIListData (kpis : list KPIDevelopment)
| AttachmentData (attachment : Attachment)
| StatsData (stats : list analytics.Bucket).

(** What an end point writes: one of the three JSON envelopes of
    [models], or the headers and the bytes of a download (the content
    length as a number). *)
Inductive Reply :=
| Message (StatusCode : Z) (Message : string)
| Validation (StatusCode : Z) (Errors : list (string * string))
| Data (StatusCode : Z) (Message : string) (data : Payload)
| FileStream (contentDisposition contentType : string) (contentLength : Z)
    (body : string).

Definition StatusOf (r : Reply) : Z :=
  match r with
  | Message c _ | Validation c _ | Data c _ _ => c
  | FileStream _ _ _ _ => StatusOK
  end.

Definition StatusCreated : Z := 201.
Definition StatusUnauthorized : Z := 401.
Definition StatusNotFound : Z := 404.

(** The [validate] tags of [models.KPIDevelopment]: [required] on
    [Goal], [Description] and [DueDate], [min=0,max=100] on
    [ActualPercent]; a field reports the first tag it fails. *)
Definition ValidateKPI (kpi : KPIDevelopment) : list (string * string) :=
  required "Goal" (Goal kpi) ++ required "Description" (Description kpi)
  ++ (if IsZero (DueDate kpi) then [("DueDate", "required")] else [])
  ++ (if ActualPercent kpi <? 0 then [("ActualPercent", "min")]
      else if 100 <? ActualPercent kpi then [("ActualPercent", "max")]
      else []).

(** [utils.DecodeAndValidate] on a record. *)
Definition DecodeAndValidateKPI (body : string + KPIDevelopment)
  : Reply + KPIDevelopment :=
  match body with
  | inl err => inl (Message StatusBadRequest err)
  | inr kpi =>
      match ValidateKPI kpi with
      | [] => inr kpi
      | errorMessages => inl (Validation StatusBadRequest errorMessages)
      end
  end.

Definition CreateKPI (body : string + KPIDevelopment) (username : string) : M Reply :=
  match DecodeAndValidateKPI body with
  | inl resp => ret resp
  | inr kpi =>
      (* Get username from JWT context *)
      let kpi :=
        set_Metadata {| CreatedBy := username; UpdatedBy := username;
                        CreatedAt := CreatedAt (KPIMetadata kpi);
                        UpdatedAt := UpdatedAt (KPIMetadata kpi) |} kpi in
      r <- services.CreateKPI kpi ;;
      match r with
      | inr err => ret (Message StatusInternalServerError err)
      | inl createdKPI =>
          ret (Data StatusCreated "KPI created successfully" (KPIData createdKPI))
      end
  end.

Definition GetKPIByID (id : string) : M Reply :=
  match ObjectIDFromHex id with
  | None => ret (Message StatusBadRequest "Invalid KPI ID format")
  | Some objectID =>
      r <- services.GetKPIByID objectID ;;
      match r with
      | inr _ => ret (Message StatusNotFound "KPI not found")
      | inl kpi => ret (Data StatusOK "KPI retrieved successfully" (KPIData kpi))
      end
  end.

Definition GetAllKPIs : M Reply :=
  r <- services.GetAllKPIs ;;
  match r with
  | inr err => ret (Message StatusInternalServerError err)
  | inl kpis => ret (Data StatusOK "KPIs retrieved successfully" (KPIListData kpis))
  end.

Definition UpdateKPI (id : string) (body : string + KPIDevelopment) (username : string)
  : M Reply :=
  match ObjectIDFromHex id with
  | None => ret (Message StatusBadRequest "Invalid KPI ID format")
  | Some objectID =>
      match DecodeAndValidateKPI body with
      | inl resp => ret resp
      | inr kpi =>
          (* Get username from JWT context *)
          let kpi :=
            set_Metadata (set_updated username (UpdatedAt (KPIMetadata kpi))
                            (KPIMetadata kpi)) kpi in
          r <- services.UpdateKPI objectID kpi ;;
          match r with
          | inr err => ret (Message StatusInternalServerError err)
          | inl updatedKPI =>
              ret (Data StatusOK "KPI updated successfully" (KPIData updatedKPI))
          end
      end
  end.

Definition DeleteKPI (id : string) (username : string) : M Reply :=
  match ObjectIDFromHex id with
  | None => ret (Message StatusBadRequest "Invalid KPI ID format")
  | Some objectID =>
      err <- services.SoftDeleteKPI objectID username ;;
      match err with
      | Some err => ret (Message StatusInternalServerError err)
      | None => ret (Message StatusOK "KPI deleted successfully")
      end
  end.

(** The part named "file" of a multipart form: the file header and the
    bytes. *)
Record FormFile := {
  HeaderFilename : string;
  HeaderSize : Z;
  HeaderContentType : string;
  FileBytes : string
}.

Definition MaxFileSize : Z := Z.shiftl 10 20.

(** [form] is the outcome of [ParseMultipartForm], an error or the
    form's "file" part, if it has one. *)
Definition UploadAttachment (form : option (option FormFile)) (id username : string)
  : M Reply :=
  match form with
  | None => ret (Message StatusBadRequest "Failed to parse multipart form")
  | Some file =>
      match ObjectIDFromHex id with
      | None => ret (Message StatusBadRequest "Invalid KPI ID format")
      | Some kpiID =>
          match file with
          | None => ret (Message StatusBadRequest "Failed to get file from form")
          | Some header =>
              (* Validate file size (optional) *)
              if MaxFileSize <? HeaderSize header then
                ret (Message StatusBadRequest "File size too large (max 10MB)")
              else
                let contentType :=
                  if String.eqb (HeaderContentType header) ""
                  then "application/octet-stream"
                  else HeaderContentType header in
                r <- services.UploadAttachment kpiID (HeaderFilename header)
                       (FileBytes header) username contentType ;;
                match r with
                | inr err => ret (Message StatusInternalServerError err)
                | inl attachment =>
                    ret (Data StatusOK "File uploaded successfully"
                           (AttachmentData attachment))
                end
          end
      end
  end.

Definition quote : string := String (ascii_of_nat 34) EmptyString.

(** The stream is opened, the headers are set from the file's name,
    metadata and length, and the bytes are copied to the response; the
    copy reads from the bucket and can fail. *)
Definition DownloadAttachment (fileIDStr : string) : M Reply :=
  match ObjectIDFromHex fileIDStr with
  | None => ret (Message StatusBadRequest "Invalid file ID format")
  | Some fileID =>
      r <- services.DownloadAttachment fileID ;;
      match r with
      | inr _ => ret (Message StatusNotFound "File not found")
      | inl fileInfo =>
          let contentType :=
            if String.eqb (gf_contentType fileInfo) "" then "application/octet-stream"
            else gf_contentType fileInfo in
          copyErr <- driver_call ;;
          match copyErr with
          | Some _ => ret (Message StatusInternalServerError "Failed to download file")
          | None =>
              ret (FileStream
                     ("attachment; filename=" +:+ quote +:+ gf_filename fileInfo +:+ quote)
                     contentType
                     (Z.of_nat (String.length (gf_data fileInfo)))
                     (gf_data fileInfo))
          end
      end
  end.

Definition DeleteAttachment (kpiIDStr fileIDStr username : string) : M Reply :=
  match ObjectIDFromHex kpiIDStr with
  | None => ret (Message StatusBadRequest "Invalid KPI ID format")
  | Some kpiID =>
      match ObjectIDFromHex fileIDStr with
      | None => ret (Message StatusBadRequest "Invalid file ID format")
      | Some fileID =>
          err <- services.DeleteAttachment kpiID fileID username ;;
          match err with
          | Some err => ret (Message StatusInternalServerError err)
          | None => ret (Message StatusOK "Attachment deleted successfully")
          end
      end
  end.

Definition GetKPIPerformanceStats
    (group_order : list analytics.Bucket -> list analytics.Bucket) : M Reply :=
  r <- analytics.GetKPIPerformanceStats group_order ;;
  match r with
  | inr err =>
      ret (Message StatusInternalServerError
             ("Failed to get KPI performance stats: " +:+ err))
  | inl stats =>
      ret (Data StatusOK "KPI performance statistics retrieved successfully"
             (StatsData stats))
  end.

End handlers.

(** ** package middlewares *)

Module middlewares.

(** [strings.TrimPrefix] *)
Definition TrimPrefix (s prefix : string) : string :=
  if String.prefix prefix s
  then String.substring (String.length prefix)
         (String.length s - String.length prefix) s
  else s.

(** [ParseWithClaims] stands for [jwt.ParseWithClaims] with the key
    function of the middleware: from the token string and the secret,
    an error or the token's [Valid] flag and the [Username] of its
    claims.  [next] is the handler behind the middleware; it receives
    the user name the middleware puts in the request's context, which
    is what [GetUsernameFromContext] reads back.  [authHeader] is
    [r.Header.Get("Authorization")], empty when the header is absent. *)
Definition JWTMiddleware (ParseWithClaims : string -> string -> (bool * string) + string)
    (jwtSecret : string) (next : string -> M handlers.Reply) (authHeader : string)
  : M handlers.Reply :=
  if String.eqb authHeader "" then
    ret (handlers.Message handlers.StatusUnauthorized "Authorization header required")
  else
    let tokenString := TrimPrefix authHeader "Bearer " in
    if String.eqb tokenString authHeader then
      ret (handlers.Message handlers.StatusUnauthorized
             "Invalid authorization header format")
    else
      match ParseWithClaims tokenString jwtSecret with
      | inr _ => ret (handlers.Message handlers.StatusUnauthorized "Invalid token")
      | inl (Valid, Username) =>
          if Valid then next Username
          else ret (handlers.Message handlers.StatusUnauthorized "Invalid token claims")
      end.

End middlewares.

(** ** Vocabulary of the statements *)

(** A step that leaves the documents alone, committed and in flight. *)
Definition same_docs (w w1 : World) : Prop :=
  collection w1 = collection w /\ txn w1 = txn w.

(** How many records of [l] have the status [s]. *)
Definition members (s : string) (l : list KPIDevelopment) : Z :=
  Z.of_nat (length (filter (fun k => analytics.status k = s) l)).

(** The invariant of the [$group] accumulators once the records [seen]
    have gone through: one group per status met, counting its records. *)
Definition group_inv (seen : list KPIDevelopment) (gs : list analytics.Group) : Prop :=
  NoDup (map analytics.g_id gs)
  /\ (forall g, In g gs ->
        analytics.g_count g = members (analytics.g_id g) seen
        /\ 1 <= analytics.g_count g)
  /\ (forall k, In k seen -> In (analytics.status k) (map analytics.g_id gs)).

(** [k'] is [k] with the attachment list [l] and the author of the
    change [by_]; every other field but the time of the change is kept. *)
Definition reattached (by_ : string) (l : list Attachment) (k k' : KPIDevelopment)
  : Prop :=
  Attachments k' = l
  /\ UpdatedBy (KPIMetadata k') = by_
  /\ ID k' = ID k /\ Goal k' = Goal k /\ Description k' = Description k
  /\ DueDate k' = DueDate k /\ ActualPercent k' = ActualPercent k
  /\ IsDeleted k' = IsDeleted k
  /\ CreatedBy (KPIMetadata k') = CreatedBy (KPIMetadata k)
  /\ CreatedAt (KPIMetadata k') = CreatedAt (KPIMetadata k).

(** The sum of [f] over a list. *)
Definition sumZ {A} (f : A -> Z) (l : list A) : Z :=
  foldr (fun x acc => f x + acc) 0 l.



(** The five labels of the [$switch]. *)
Definition labels : list string :=
  ["Completed"; "On Track"; "At Risk"; "Behind"; "Not Started"].

(** An end point that answers with [status] and has called no store. *)
Definition turned_away (status : Z) (w : World)
    (r : handlers.Reply * World * list Event) : Prop :=
  handlers.StatusOf (value r) = status /\ final r = w /\ trace r = [].

(** ** Concrete worlds *)

Module examples.

Definition meta : Metadata :=
  {| CreatedBy := "ann"; UpdatedBy := "ann"; CreatedAt := 1000; UpdatedAt := 1000 |}.

Definition kpi (id : ObjectID) (percent : Z) (atts : list Attachment) (deleted : bool)
  : KPIDevelopment :=
  {| ID := id; Goal := "Learn Go"; Description := "Finish the course";
     DueDate := 5000; ActualPercent := percent; Attachments := atts;
     IsDeleted := deleted; KPIMetadata := meta |}.

Definition cv : Attachment := {| FileID := 7; Filename := "cv.pdf" |}.

Definition cv_file : GridFile :=
  {| gf_filename := "cv.pdf"; gf_data := "%PDF"; gf_uploadedBy := "ann";
     gf_uploadedAt := 1500; gf_contentType := "application/pdf" |}.

Definition world (docs : list (N * KPIDevelopment)) (files : list (N * GridFile))
    (fl : list (option string)) : World :=
  {| collection := list_to_map docs; txn := None; bucket := list_to_map files;
     next_oid := 100; clock := 2000; faults := fl |}.

(** Record 1 is soft-deleted; the driver never fails. *)
Definition soft_deleted : World := world [(1%N, kpi 1 10 [] true)] [] [].

(** Record 1 is live; the third and the fourth driver call fail. *)
Definition append_and_cleanup_fail : World :=
  world [(1%N, kpi 1 10 [] false)] []
    [None; None; Some "write concern timeout"; Some "connection reset"].


(** As before, and the fourth driver call fails too. *)
Definition blob_delete_and_rollback_fail : World :=
  world [(1%N, kpi 1 10 [cv] false)] [(7%N, cv_file)]
    [None; None; Some "connection reset"; Some "not primary"].

(** Record 1 holds the reference to blob 7, record 2 is soft-deleted. *)
Definition transfer_to_deleted : World :=
  world [(1%N, kpi 1 10 [cv] false); (2%N, kpi 2 0 [] true)] [(7%N, cv_file)] [].

(** Record 1 is at 40 percent. *)
Definition at_forty : World := world [(1%N, kpi 1 40 [cv] false)] [(7%N, cv_file)] [].

(** An update that carries only the name of its author. *)
Definition empty_update : KPIDevelopment :=
  {| ID := 0; Goal := ""; Description := ""; DueDate := zeroTime; ActualPercent := 0;
     Attachments := []; IsDeleted := false;
     KPIMetadata := {| CreatedBy := ""; UpdatedBy := "bob";
                       CreatedAt := zeroTime; UpdatedAt := zeroTime |} |}.

(** Source and destination name the same record, in different case. *)
Definition same_ids : handlers.transferRequest :=
  {| handlers.FromKPIID := "0000000000000000000000aa";
     handlers.ToKPIID := "0000000000000000000000AA";
     handlers.ReqFileID := "000000000000000000000007" |}.

(** Percents 0, 0 and 100 among the live records, 30 on a deleted one. *)
Definition three_records : list KPIDevelopment :=
  [kpi 1 0 [] false; kpi 4 30 [] true; kpi 2 0 [cv] false; kpi 3 100 [] false].

(** One live record per boundary value. *)
Definition boundary_records : list KPIDevelopment :=
  [kpi 1 0 [] false; kpi 2 1 [] false; kpi 3 24 [] false; kpi 4 25 [] false;
   kpi 5 49 [] false; kpi 6 50 [] false; kpi 7 99 [] false; kpi 8 100 [] false].

(** Record 1 holds the reference to blob 7, record 2 is live and has no
    attachment. *)
Definition two_live : World :=
  world [(1%N, kpi 1 10 [cv] false); (2%N, kpi 2 0 [] false)] [(7%N, cv_file)] [].

(** The body of a request that fills every field. *)
Definition full_body : KPIDevelopment :=
  {| ID := 55; Goal := "Learn Rust"; Description := "Read the book"; DueDate := 9000;
     ActualPercent := 60; Attachments := []; IsDeleted := true;
     KPIMetadata := {| CreatedBy := "mallory"; UpdatedBy := "mallory";
                       CreatedAt := 1; UpdatedAt := 1 |} |}.

(** A file part that declares no content type. *)
Definition notes : handlers.FormFile :=
  {| handlers.HeaderFilename := "notes.txt"; handlers.HeaderSize := 5;
     handlers.HeaderContentType := ""; handlers.FileBytes := "hello" |}.

(** A token parser that accepts the one token "good", of user "ann". *)
Definition toy_parser (tokenString jwtSecret : string) : (bool * string) + string :=
  if String.eqb tokenString "good" then inl (true, "ann")
  else inr "token is malformed".

End examples.

(** * Properties *)

(** ** What each call into the stores does *)

Ltac run_driver w :=
  unfold bind, driver_call, emit, ret, Now, NewObjectID; simpl;
  destruct (faults w) as [|[?|] ?]; simpl.

Lemma FindOne_spec c id w r w1 t :
  FindOne c id w = (r, w1, t) ->
  t = [] /\ same_docs w w1 /\ bucket w1 = bucket w /\
  (forall k, r = inl k -> view c w !! id = Some k).
Proof.
  unfold FindOne, same_docs. run_driver w.
  all: try (destruct (view c _ !! id) eqn:E); simpl; intros [= <- <- <-]; simpl.
  all: repeat split; try done.
  all: try (intros k' [= <-]; try done).
Qed.

Lemma UpdateOne_spec c id flt upd w r w1 t :
  UpdateOne c id flt upd w = (r, w1, t) ->
  t = [] /\ bucket w1 = bucket w /\
  match r with
  | inr _ => same_docs w w1
  | inl n =>
      (n = 1 /\ exists k, view c w !! id = Some k /\ flt k = true /\
         collection w1 = collection (store c (<[id := upd k]> (view c w)) w) /\
         txn w1 = txn (store c (<[id := upd k]> (view c w)) w))
      \/ (n = 0 /\ same_docs w w1 /\
          (view c w !! id = None \/ exists k, view c w !! id = Some k /\ flt k = false))
  end.
Proof.
  unfold UpdateOne, same_docs. run_driver w.
  all: try (destruct (view c _ !! id) as [k|] eqn:E; [destruct (flt k) eqn:F|]);
    simpl; intros [= <- <- <-]; simpl.
  all: repeat split; try done.
  all: try (left; split; [done|]; exists k; repeat split; try done).
  all: try (right; repeat split; try done; try (by left); try (right; by exists k)).
  all: destruct c; simpl; try done; destruct (txn w); done.
Qed.

Lemma store_clock c m t w :
  collection (store c m (with_clock t w)) = collection (store c m w) /\
  txn (store c m (with_clock t w)) = txn (store c m w).
Proof. destruct c; simpl; [done|]. unfold store. simpl. by destruct (txn w). Qed.

Lemma store_in_txn m m' w :
  txn w = Some m' ->
  collection (store SessionCtx m w) = collection w /\
  txn (store SessionCtx m w) = Some m.
Proof. intros H. unfold store. rewrite H. done. Qed.

Ltac step_UpdateOne E :=
  match goal with
  | |- context [UpdateOne ?c ?id ?f ?u ?w0] =>
      destruct (UpdateOne c id f u w0) as [[r w'] t'] eqn:E; simpl;
      apply UpdateOne_spec in E as (-> & ? & E)
  end.

Ltac finish_update E k :=
  match goal with
  | r : (Z + string)%type |- _ =>
      destruct r as [n|e]; [|exact E];
      destruct E as [(-> & k & Hk & Hf & Hc & Ht) | (-> & Hs & _)]; simpl; [|exact Hs]
  end.

Section Repository.
Import repository.

Lemma GetByID_spec c id w r w1 t :
  GetByID c id w = (r, w1, t) ->
  t = [EvGetByID c id (err_of r)] /\ same_docs w w1 /\ bucket w1 = bucket w /\
  (forall k, r = inl k -> view c w !! id = Some k).
Proof.
  unfold GetByID, bind, emit, ret.
  destruct (FindOne c id w) as [[r0 w0] t0] eqn:E. simpl.
  intros [= <- <- <-].
  apply FindOne_spec in E as (-> & ? & ? & ?). done.
Qed.

Lemma AddAttachment_spec c id a by_ w err w1 t :
  AddAttachment c id a by_ w = (err, w1, t) ->
  t = [EvAddAttachment c id a err] /\ bucket w1 = bucket w /\
  match err with
  | Some _ => same_docs w w1
  | None =>
      exists k, view c w !! id = Some k /\ IsDeleted k = false /\
        collection w1 =
          collection (store c (<[id := touch by_ (clock w) (push a k)]> (view c w)) w) /\
        txn w1 = txn (store c (<[id := touch by_ (clock w) (push a k)]> (view c w)) w)
  end.
Proof.
  unfold AddAttachment, bind, emit, ret, Now. simpl.
  step_UpdateOne E. intros [= <- <- <-]. simpl.
  split; [done|]. split; [done|].
  finish_update E k.
  exists k. apply negb_true_iff in Hf.
  destruct (store_clock c (<[id := touch by_ (clock w) (push a k)]> (view c w))
              (clock w + 1) w) as [Ec Et].
  split; [exact Hk|]. split; [exact Hf|].
  split; [rewrite Hc; exact Ec | rewrite Ht; exact Et].
Qed.

Lemma RemoveAttachment_spec c id fid by_ w err w1 t :
  RemoveAttachment c id fid by_ w = (err, w1, t) ->
  t = [EvRemoveAttachment c id fid err] /\ bucket w1 = bucket w /\
  match err with
  | Some _ => same_docs w w1
  | None =>
      exists k, view c w !! id = Some k /\ IsDeleted k = false /\
        collection w1 =
          collection (store c (<[id := touch by_ (clock w) (pull fid k)]> (view c w)) w) /\
        txn w1 = txn (store c (<[id := touch by_ (clock w) (pull fid k)]> (view c w)) w)
  end.
Proof.
  unfold RemoveAttachment, bind, emit, ret, Now. simpl.
  step_UpdateOne E. intros [= <- <- <-]. simpl.
  split; [done|]. split; [done|].
  finish_update E k.
  exists k. apply negb_true_iff in Hf.
  destruct (store_clock c (<[id := touch by_ (clock w) (pull fid k)]> (view c w))
              (clock w + 1) w) as [Ec Et].
  split; [exact Hk|]. split; [exact Hf|].
  split; [rewrite Hc; exact Ec | rewrite Ht; exact Et].
Qed.

Lemma Update_spec c id kpi w err w1 t :
  Update c id kpi w = (err, w1, t) ->
  t = [EvUpdate id err] /\ bucket w1 = bucket w /\
  match err with
  | Some _ => same_docs w w1
  | None =>
      is_Some (view c w !! id) /\
      collection w1 = collection (store c (<[id := kpi]> (view c w)) w) /\
      txn w1 = txn (store c (<[id := kpi]> (view c w)) w)
  end.
Proof.
  unfold Update, bind, emit, ret. simpl.
  step_UpdateOne E. intros [= <- <- <-]. simpl.
  split; [done|]. split; [done|].
  finish_update E k.
  split; [by exists k|]. done.
Qed.

Lemma UploadFile_spec filename data by_ ct w r w1 t :
  UploadFile filename data by_ ct w = (r, w1, t) ->
  t = [EvUploadFile filename r] /\ same_docs w w1 /\
  match r with
  | inr _ => bucket w1 = bucket w
  | inl fileID => is_Some (bucket w1 !! fileID)
  end.
Proof.
  unfold UploadFile, UploadFromStream, same_docs. run_driver w.
  all: intros [= <- <- <-]; simpl; repeat split; try done.
  all: by rewrite lookup_insert_eq.
Qed.

Lemma DeleteFile_spec fileID w err w1 t :
  DeleteFile fileID w = (err, w1, t) ->
  t = [EvDeleteFile fileID err] /\ same_docs w w1 /\
  match err with
  | Some _ => bucket w1 = bucket w
  | None => bucket w1 = delete fileID (bucket w)
  end.
Proof.
  unfold DeleteFile, BucketDelete, same_docs. run_driver w.
  all: try (destruct (bucket w !! fileID) eqn:E); simpl.
  all: intros [= <- <- <-]; simpl; repeat split; try done.
Qed.

End Repository.

Lemma StartSession_spec w err w1 t :
  StartSession w = (err, w1, t) ->
  t = [EvStartSession err] /\ collection w1 = collection w /\ bucket w1 = bucket w /\
  (err = None -> txn w1 = None).
Proof.
  unfold StartSession. run_driver w.
  all: intros [= <- <- <-]; simpl; repeat split; try done.
Qed.

Lemma StartTransaction_spec w err w1 t :
  StartTransaction w = (err, w1, t) ->
  t = [EvStartTransaction err] /\ collection w1 = collection w /\ bucket w1 = bucket w /\
  (err = None -> txn w1 = Some (collection w)).
Proof.
  unfold StartTransaction. run_driver w.
  all: intros [= <- <- <-]; simpl; repeat split; try done.
Qed.

Lemma AbortTransaction_spec w err w1 t :
  AbortTransaction w = (err, w1, t) ->
  t = [EvAbortTransaction err] /\ collection w1 = collection w /\ bucket w1 = bucket w.
Proof.
  unfold AbortTransaction. run_driver w.
  all: intros [= <- <- <-]; simpl; repeat split; try done.
Qed.

Lemma CommitTransaction_spec w err w1 t :
  CommitTransaction w = (err, w1, t) ->
  t = [EvCommitTransaction err] /\ bucket w1 = bucket w.
Proof.
  unfold CommitTransaction. run_driver w.
  all: try (destruct (txn w) eqn:E); simpl.
  all: intros [= <- <- <-]; simpl; repeat split; try done.
Qed.

(** Run the next call of the goal and keep what its specification says. *)
Ltac exec_step :=
  match goal with
  | |- context [repository.GetByID ?c ?id ?w0] =>
      let E := fresh "E" in
      destruct (repository.GetByID c id w0) as [[?r ?w] ?t] eqn:E;
      apply GetByID_spec in E as (-> & [? ?] & ? & ?)
  | |- context [repository.UploadFile ?a ?b ?c ?d ?w0] =>
      let E := fresh "E" in
      destruct (repository.UploadFile a b c d w0) as [[?r ?w] ?t] eqn:E;
      apply UploadFile_spec in E as (-> & [? ?] & ?)
  | |- context [repository.AddAttachment ?c ?id ?a ?b ?w0] =>
      let E := fresh "E" in
      destruct (repository.AddAttachment c id a b w0) as [[?r ?w] ?t] eqn:E;
      apply AddAttachment_spec in E as (-> & ? & ?)
  | |- context [repository.RemoveAttachment ?c ?id ?a ?b ?w0] =>
      let E := fresh "E" in
      destruct (repository.RemoveAttachment c id a b w0) as [[?r ?w] ?t] eqn:E;
      apply RemoveAttachment_spec in E as (-> & ? & ?)
  | |- context [repository.DeleteFile ?a ?w0] =>
      let E := fresh "E" in
      destruct (repository.DeleteFile a w0) as [[?r ?w] ?t] eqn:E;
      apply DeleteFile_spec in E as (-> & [? ?] & ?)
  | |- context [repository.Update ?c ?id ?a ?w0] =>
      let E := fresh "E" in
      destruct (repository.Update c id a w0) as [[?r ?w] ?t] eqn:E;
      apply Update_spec in E as (-> & ? & ?)
  | |- context [StartSession ?w0] =>
      let E := fresh "E" in
      destruct (StartSession w0) as [[?r ?w] ?t] eqn:E;
      apply StartSession_spec in E as (-> & ? & ? & ?)
  | |- context [StartTransaction ?w0] =>
      let E := fresh "E" in
      destruct (StartTransaction w0) as [[?r ?w] ?t] eqn:E;
      apply StartTransaction_spec in E as (-> & ? & ? & ?)
  | |- context [AbortTransaction ?w0] =>
      let E := fresh "E" in
      destruct (AbortTransaction w0) as [[?r ?w] ?t] eqn:E;
      apply AbortTransaction_spec in E as (-> & ? & ?)
  | |- context [CommitTransaction ?w0] =>
      let E := fresh "E" in
      destruct (CommitTransaction w0) as [[?r ?w] ?t] eqn:E;
      apply CommitTransaction_spec in E as (-> & ?)
  end.

(** The path at hand never emitted the event a hypothesis speaks of. *)
Ltac not_in_trace :=
  exfalso; simpl in *;
  repeat match goal with
         | H : False |- _ => destruct H
         | H : @eq Event _ _ |- _ => discriminate H
         | H : _ \/ _ |- _ => destruct H
         end.

Ltac frame :=
  unfold same_docs in *;
  repeat match goal with H : _ /\ _ |- _ => destruct H end;
  congruence.

(** ** Upload *)




(** What an upload returns once the append has failed does not depend
    on the outcome of the deletion of the blob. *)
Lemma upload_error_ignores_cleanup w kpiID filename data by_ ct a e :
  let r := services.UploadAttachment kpiID filename data by_ ct w in
  In (EvAddAttachment Background kpiID a (Some e)) (trace r) ->
  value r = inr ("failed to add attachment to KPI: " +:+ e).
Proof.
  intros r; subst r.
  unfold services.UploadAttachment, bind, ret, value, final, trace. simpl.
  exec_step. destruct r as [k|err]; simpl; [|intros; not_in_trace].
  exec_step. destruct r as [fileID|err]; simpl; [|intros; not_in_trace].
  exec_step. destruct r as [err|]; simpl; [|intros; not_in_trace].
  exec_step. simpl.
  intros Ha.
  destruct Ha as [Ha|[Ha|[Ha|[Ha|[]]]]]; try discriminate Ha.
  by injection Ha as <- <-.
Qed.

(** When the driver works, an upload to a soft-deleted record reads the
    record, stores the blob, fails to append and deletes the blob. *)
Lemma upload_soft_deleted_stores_blob w kpiID k filename data by_ ct :
  collection w !! kpiID = Some k -> IsDeleted k = true -> faults w = [] ->
  let r := services.UploadAttachment kpiID filename data by_ ct w in
  let fileID := next_oid w in
  trace r = [EvGetByID Background kpiID None;
             EvUploadFile filename (inl fileID);
             EvAddAttachment Background kpiID
               {| FileID := fileID; Filename := filename |}
               (Some ("no document found with id " +:+ Hex kpiID));
             EvDeleteFile fileID None]
  /\ value r = inr ("failed to add attachment to KPI: " +:+
                    "no document found with id " +:+ Hex kpiID).
Proof.
  intros Hk Hdel Hf.
  unfold services.UploadAttachment, repository.GetByID, FindOne,
    repository.UploadFile, UploadFromStream, repository.AddAttachment, UpdateOne,
    repository.DeleteFile, BucketDelete,
    bind, ret, emit, Now, NewObjectID, driver_call, value, trace.
  simpl. rewrite Hf. simpl. rewrite Hk. simpl. rewrite Hf. simpl.
  rewrite Hf. simpl. rewrite Hk. simpl. rewrite Hdel. simpl.
  rewrite Hf. simpl. rewrite lookup_insert_eq. simpl. done.
Qed.

(** C4.  Uploading to the soft-deleted record 1: [GetByID] finds the
    record, the blob 100 is stored, the append matches no document, the
    blob is deleted again, and the error is the one of the append. *)
Theorem upload_to_soft_deleted_record :
  let r := services.UploadAttachment 1 "a.pdf" "data" "ann" "application/pdf"
             examples.soft_deleted in
  trace r = [EvGetByID Background 1 None;
             EvUploadFile "a.pdf" (inl 100%N);
             EvAddAttachment Background 1 {| FileID := 100; Filename := "a.pdf" |}
               (Some "no document found with id 000000000000000000000001");
             EvDeleteFile 100 None]
  /\ value r = inr "failed to add attachment to KPI: no document found with id 000000000000000000000001"
  /\ bucket (final r) = bucket examples.soft_deleted.
Proof. vm_compute. done. Qed.

(** C5.  The append fails with "write concern timeout" and the deletion
    of the blob with "connection reset": the upload returns the append
    error alone, and the blob stays.  On the delete path, the same two
    failures come back chained in one message. *)
Theorem upload_drops_cleanup_error :
  let r := services.UploadAttachment 1 "a.pdf" "data" "ann" "application/pdf"
             examples.append_and_cleanup_fail in
  let d := services.DeleteAttachment 1 7 "bob"
             examples.blob_delete_and_rollback_fail in
  trace r = [EvGetByID Background 1 None;
             EvUploadFile "a.pdf" (inl 100%N);
             EvAddAttachment Background 1 {| FileID := 100; Filename := "a.pdf" |}
               (Some "write concern timeout");
             EvDeleteFile 100 (Some "connection reset")]
  /\ value r = inr "failed to add attachment to KPI: write concern timeout"
  /\ is_Some (bucket (final r) !! 100%N)
  /\ value d = Some "failed to delete file from GridFS and rollback failed: not primary (original error: connection reset)".
Proof. vm_compute. repeat split; eauto. Qed.

(** ** Delete *)





(** ** Transfer *)

Lemma find_attachment_In fileID l a :
  services.find_attachment fileID l = Some a -> In a l /\ FileID a = fileID.
Proof.
  induction l as [|x l IH]; simpl; [discriminate|].
  destruct (N.eqb_spec (FileID x) fileID) as [Heq|Hne].
  - intros [= <-]. split; [by left|done].
  - intros H. destruct (IH H). split; [by right|done].
Qed.

(** C3.  Whenever the append to the destination fails with [e] in a
    transfer, the committed records, the bucket included, are exactly
    as before the call and no transaction is left open; so the source
    still lists the reference, and the destination, which did not list
    it before, does not list it now.  The transfer returns the append
    error, and after the failed append it only aborts the transaction
    and ends the session: nothing is re-inserted by hand. *)
Theorem transfer_all_or_nothing w fromKPIID toKPIID fileID by_ a e :
  let r := services.TransferAttachmentBetweenKPIs fromKPIID toKPIID fileID by_ w in
  In (EvAddAttachment SessionCtx toKPIID a (Some e)) (trace r) ->
  (forall dst, collection w !! toKPIID = Some dst -> ~ In a (Attachments dst)) ->
  collection (final r) = collection w
  /\ bucket (final r) = bucket w
  /\ txn (final r) = None
  /\ FileID a = fileID
  /\ (exists src, collection (final r) !! fromKPIID = Some src /\ In a (Attachments src))
  /\ (exists dst, collection (final r) !! toKPIID = Some dst /\ ~ In a (Attachments dst))
  /\ value r = Some ("failed to add attachment to destination KPI: " +:+ e)
  /\ (exists abortErr,
        trace r = [EvStartSession None; EvStartTransaction None;
                   EvGetByID SessionCtx fromKPIID None;
                   EvGetByID SessionCtx toKPIID None;
                   EvRemoveAttachment SessionCtx fromKPIID fileID None;
                   EvAddAttachment SessionCtx toKPIID a (Some e);
                   EvAbortTransaction abortErr; EvEndSession]).
Proof.
  intros r; subst r.
  unfold services.TransferAttachmentBetweenKPIs, services.transfer_in_session,
    EndSession, bind, ret, value, final, trace. simpl.
  exec_step. destruct r as [err|]; simpl; [intros; not_in_trace|].
  exec_step. destruct r as [err|]; simpl; [intros; not_in_trace|].
  exec_step. destruct r as [fromKPI|err]; simpl;
    [|exec_step; simpl; intros; not_in_trace].
  exec_step. destruct r as [toKPI|err]; simpl;
    [|exec_step; simpl; intros; not_in_trace].
  destruct (services.find_attachment fileID (Attachments fromKPI)) as [att|] eqn:Hfind;
    simpl; [|exec_step; simpl; intros; not_in_trace].
  exec_step. destruct r as [err|]; simpl;
    [exec_step; simpl; intros; not_in_trace|].
  exec_step. destruct r as [err|]; simpl.
  2:{ exec_step. destruct r as [err|]; simpl;
        [exec_step; simpl; intros; not_in_trace | intros; not_in_trace]. }
  exec_step. simpl. intros Ha Hdst.
  repeat (destruct Ha as [Ha|Ha]; try discriminate Ha); [|destruct Ha].
  injection Ha as <- <-.
  apply find_attachment_In in Hfind as [Hin Hfid].
  lazymatch goal with H : None = None -> txn w1 = _ |- _ =>
    specialize (H eq_refl); rename H into Htx1 end.
  lazymatch goal with H : forall k, inl fromKPI = inl k -> _ |- _ =>
    specialize (H fromKPI eq_refl); rename H into Hfrom end.
  lazymatch goal with H : forall k, inl toKPI = inl k -> _ |- _ =>
    specialize (H toKPI eq_refl); rename H into Hto end.
  lazymatch goal with H : exists k, view SessionCtx w3 !! fromKPIID = Some k /\ _ |- _ =>
    destruct H as (k & _ & _ & Hc4 & _) end.
  unfold same_docs in *.
  repeat match goal with H : _ /\ _ |- _ => destruct H end.
  assert (Htx2 : txn w2 = Some (collection w0)) by congruence.
  assert (Htx3 : txn w3 = Some (collection w0)) by congruence.
  unfold view in Hfrom, Hto. rewrite Htx1 in Hfrom. rewrite Htx2 in Hto.
  unfold store in Hc4. rewrite Htx3 in Hc4. simpl in Hc4.
  assert (Hcoll : collection w6 = collection w) by congruence.
  split; [done|]. split; [congruence|]. split; [done|]. split; [done|].
  split. { exists fromKPI. split; [congruence | done]. }
  split. { exists toKPI. split; [congruence|]. apply Hdst. congruence. }
  split; [done|]. by eexists.
Qed.

Lemma transfer_all_or_nothing_witness :
  let r := services.TransferAttachmentBetweenKPIs 1 2 7 "bob"
             examples.transfer_to_deleted in
  collection (final r) = collection examples.transfer_to_deleted
  /\ (exists src, collection (final r) !! 1%N = Some src
                  /\ In examples.cv (Attachments src))
  /\ (exists dst, collection (final r) !! 2%N = Some dst
                  /\ ~ In examples.cv (Attachments dst)).
Proof.
  intros r.
  destruct (transfer_all_or_nothing examples.transfer_to_deleted 1 2 7 "bob"
              examples.cv "no document found with id 000000000000000000000002")
    as (Hc & _ & _ & _ & Hs & Hd & _).
  - vm_compute. auto 10.
  - intros dst H. vm_compute in H. injection H as <-. simpl. tauto.
  - split; [exact Hc|]. split; [exact Hs | exact Hd].
Defined.

(** C6.  A transfer request whose source and destination identifiers
    parse to the same record id is answered with status 400 and reaches
    no store: the world is unchanged and no call was made.  When the
    file id parses as well, the answer is the message of the equality
    check. *)
Theorem transfer_rejects_equal_ids t username w id :
  ObjectIDFromHex (handlers.FromKPIID t) = Some id ->
  ObjectIDFromHex (handlers.ToKPIID t) = Some id ->
  let r := handlers.TransferAttachment (inr t) username w in
  handlers.StatusCode (value r) = handlers.StatusBadRequest
  /\ final r = w
  /\ trace r = []
  /\ (forall fileID, ObjectIDFromHex (handlers.ReqFileID t) = Some fileID ->
        value r = handlers.MessageResponse handlers.StatusBadRequest
                    "Source and destination KPI cannot be the same").
Proof.
  assert (Hne : forall s x, ObjectIDFromHex s = Some x -> String.eqb s "" = false).
  { intros s x. destruct s; [discriminate|done]. }
  intros Hfrom Hto r; subst r.
  unfold handlers.TransferAttachment, handlers.DecodeAndValidate, handlers.Validate,
    handlers.required.
  rewrite (Hne _ _ Hfrom), (Hne _ _ Hto).
  simpl.
  destruct (ObjectIDFromHex (handlers.ReqFileID t)) as [fileID|] eqn:Hfile.
  - rewrite (Hne _ _ Hfile). simpl.
    rewrite Hfrom, Hto, Hfile, N.eqb_refl. done.
  - destruct (String.eqb (handlers.ReqFileID t) ""); simpl.
    + done.
    + rewrite Hfrom, Hto, Hfile. done.
Qed.

Lemma transfer_rejects_equal_ids_witness :
  let r := handlers.TransferAttachment (inr examples.same_ids) "bob"
             examples.transfer_to_deleted in
  value r = handlers.MessageResponse 400 "Source and destination KPI cannot be the same"
  /\ final r = examples.transfer_to_deleted
  /\ trace r = [].
Proof.
  intros r.
  destruct (transfer_rejects_equal_ids examples.same_ids "bob"
              examples.transfer_to_deleted 170%N)
    as (_ & Hw & Ht & Hv).
  - reflexivity.
  - reflexivity.
  - split; [|split; [exact Hw | exact Ht]].
    apply (Hv 7%N). reflexivity.
Defined.

(** The service has no check of its own: called with one id for both
    records, it runs the whole transaction, which moves the reference to
    the end of the record's list. *)
Lemma service_transfer_within_one_record :
  let r := services.TransferAttachmentBetweenKPIs 1 1 7 "bob"
             examples.transfer_to_deleted in
  value r = None
  /\ trace r = [EvStartSession None; EvStartTransaction None;
                EvGetByID SessionCtx 1 None; EvGetByID SessionCtx 1 None;
                EvRemoveAttachment SessionCtx 1 7 None;
                EvAddAttachment SessionCtx 1 examples.cv None;
                EvCommitTransaction None; EvEndSession].
Proof. vm_compute. done. Qed.

(** ** Update *)

(** What [UpdateKPI] stores, field by field. *)
Lemma UpdateKPI_spec w id kpi :
  let r := services.UpdateKPI id kpi w in
  bucket (final r) = bucket w /\
  match value r with
  | inr _ => collection (final r) = collection w
  | inl k =>
      exists old,
        collection w !! id = Some old
        /\ collection (final r) = <[id := k]> (collection w)
        /\ Goal k = (if String.eqb (Goal kpi) "" then Goal old else Goal kpi)
        /\ Description k =
             (if String.eqb (Description kpi) "" then Description old
              else Description kpi)
        /\ DueDate k = (if IsZero (DueDate kpi) then DueDate old else DueDate kpi)
        /\ ActualPercent k = ActualPercent kpi
        /\ UpdatedBy (KPIMetadata k) = UpdatedBy (KPIMetadata kpi)
        /\ ID k = ID old
        /\ Attachments k = Attachments old
        /\ IsDeleted k = IsDeleted old
        /\ CreatedBy (KPIMetadata k) = CreatedBy (KPIMetadata old)
        /\ CreatedAt (KPIMetadata k) = CreatedAt (KPIMetadata old)
  end.
Proof.
  intros r; subst r.
  unfold services.UpdateKPI, bind, ret, Now, value, final. simpl.
  exec_step. destruct r as [old|err]; simpl; [|split; congruence].
  exec_step. simpl in *.
  lazymatch goal with H : forall k, inl old = inl k -> _ |- _ =>
    specialize (H old eq_refl); rename H into Hold end.
  destruct r as [err|]; simpl.
  - unfold same_docs in *. simpl in *.
    repeat match goal with H : _ /\ _ |- _ => destruct H end. split; congruence.
  - repeat match goal with H : _ /\ _ |- _ => destruct H end.
    split; [congruence|]. exists old.
    split; [done|]. split; [congruence|].
    destruct (String.eqb (Goal kpi) ""), (String.eqb (Description kpi) ""),
      (IsZero (DueDate kpi)); simpl; done.
Qed.

(** On an existing record, and when the driver works, the update
    returns the record it stored. *)
Lemma UpdateKPI_succeeds w id kpi old :
  collection w !! id = Some old -> faults w = [] ->
  exists k, value (services.UpdateKPI id kpi w) = inl k.
Proof.
  intros Hold Hf.
  unfold services.UpdateKPI, repository.GetByID, FindOne, repository.Update, UpdateOne,
    bind, ret, emit, Now, driver_call, value. simpl.
  rewrite Hf. simpl. rewrite Hold. simpl. rewrite Hf. simpl. rewrite Hold. simpl.
  eauto.
Qed.

(** C9.  On an existing record, whatever its completion was, an update
    whose input has [ActualPercent] zero (the value an omitted field
    decodes to) stores the record with [ActualPercent] zero: every
    record the update returns is the stored one and has percent zero,
    and the update does return when the driver works. *)
Theorem update_zero_percent_persisted w id kpi old :
  collection w !! id = Some old ->
  ActualPercent kpi = 0 ->
  let r := services.UpdateKPI id kpi w in
  (forall k, value r = inl k ->
     collection (final r) !! id = Some k /\ ActualPercent k = 0)
  /\ (faults w = [] -> exists k, value r = inl k).
Proof.
  intros Hold Hz r. split.
  - intros k Hk. destruct (UpdateKPI_spec w id kpi) as [_ H]. fold r in H.
    rewrite Hk in H. destruct H as (old' & _ & Hc & _ & _ & _ & Hp & _).
    split; [rewrite Hc; apply lookup_insert_eq | congruence].
  - intros Hf. by eapply UpdateKPI_succeeds.
Qed.

Lemma update_zero_percent_persisted_witness :
  let r := services.UpdateKPI 1 examples.empty_update examples.at_forty in
  exists k, value r = inl k
            /\ collection (final r) !! 1%N = Some k /\ ActualPercent k = 0.
Proof.
  intros r.
  destruct (update_zero_percent_persisted examples.at_forty 1 examples.empty_update
              (examples.kpi 1 40 [examples.cv] false)) as [Hp Hr].
  - reflexivity.
  - reflexivity.
  - destruct Hr as [k Hk]; [reflexivity|].
    exists k. split; [exact Hk | exact (Hp k Hk)].
Defined.

(** C10.  On an existing record, the record an update stores keeps the
    old [Goal] when the input [Goal] is empty, the old [Description]
    when the input [Description] is empty, the old [DueDate] when the
    input [DueDate] is the zero time, and in every case the old [ID],
    [Attachments], [IsDeleted], [CreatedBy] and [CreatedAt]; the other
    records and the bucket are untouched.  The update does return when
    the driver works. *)
Theorem update_frame w id kpi old :
  collection w !! id = Some old ->
  let r := services.UpdateKPI id kpi w in
  (forall k, value r = inl k ->
     collection (final r) !! id = Some k
     /\ (Goal kpi = "" -> Goal k = Goal old)
     /\ (Description kpi = "" -> Description k = Description old)
     /\ (DueDate kpi = zeroTime -> DueDate k = DueDate old)
     /\ ID k = ID old
     /\ Attachments k = Attachments old
     /\ IsDeleted k = IsDeleted old
     /\ CreatedBy (KPIMetadata k) = CreatedBy (KPIMetadata old)
     /\ CreatedAt (KPIMetadata k) = CreatedAt (KPIMetadata old)
     /\ (forall j, j <> id -> collection (final r) !! j = collection w !! j)
     /\ bucket (final r) = bucket w)
  /\ (faults w = [] -> exists k, value r = inl k).
Proof.
  intros Hold r. split.
  - intros k Hk. destruct (UpdateKPI_spec w id kpi) as [Hb H]. fold r in H, Hb.
    rewrite Hk in H.
    destruct H as (old' & Hold' & Hc & Hg & Hd & Hdue & _ & _ & ? & ? & ? & ? & ?).
    assert (old' = old) as -> by congruence.
    split; [rewrite Hc; apply lookup_insert_eq|].
    split. { intros E. rewrite E in Hg. done. }
    split. { intros E. rewrite E in Hd. done. }
    split. { intros E. rewrite E in Hdue. done. }
    repeat (split; [done|]).
    split; [|done].
    intros j Hj. rewrite Hc. by rewrite lookup_insert_ne.
  - intros Hf. by eapply UpdateKPI_succeeds.
Qed.

Lemma update_frame_witness :
  let r := services.UpdateKPI 1 examples.empty_update examples.at_forty in
  exists k, value r = inl k
            /\ Goal k = "Learn Go" /\ Description k = "Finish the course"
            /\ DueDate k = 5000 /\ Attachments k = [examples.cv]
            /\ IsDeleted k = false.
Proof.
  intros r.
  destruct (update_frame examples.at_forty 1 examples.empty_update
              (examples.kpi 1 40 [examples.cv] false)) as [Hp Hr].
  - reflexivity.
  - destruct Hr as [k Hk]; [reflexivity|].
    destruct (Hp k Hk) as (_ & Hg & Hd & Hdue & _ & Ha & Hdel & _).
    exists k. split; [exact Hk|].
    split; [exact (Hg eq_refl)|]. split; [exact (Hd eq_refl)|].
    split; [exact (Hdue eq_refl)|]. split; [exact Ha | exact Hdel].
Defined.

(** ** Performance aggregation *)

Section Analytics.
Import analytics.

(** [$switch] takes the first branch that holds, from the highest
    threshold down. *)
Lemma status_cases k :
  status k =
    if ActualPercent k >=? 100 then "Completed"
    else if ActualPercent k >=? 50 then "On Track"
    else if ActualPercent k >=? 25 then "At Risk"
    else if ActualPercent k >=? 1 then "Behind"
    else "Not Started".
Proof.
  unfold status. simpl.
  repeat (destruct (_ >=? _); [done|]). by destruct (_ =? _).
Qed.

Lemma members_snoc s l k :
  members s (l ++ [k]) = members s l + (if decide (status k = s) then 1 else 0).
Proof.
  unfold members. rewrite filter_app, length_app.
  rewrite filter_cons, filter_nil. destruct (decide (status k = s)); simpl; lia.
Qed.

Lemma members_zero s l : (forall k, In k l -> status k <> s) -> members s l = 0.
Proof.
  intros H. unfold members.
  destruct (filter (fun k => status k = s) l) as [|x l'] eqn:E; [done|].
  assert (x ∈ filter (fun k => status k = s) l) as Hel by (rewrite E; left).
  apply list_elem_of_filter in Hel as [Hs Hx]. apply list_elem_of_In in Hx.
  by destruct (H x Hx).
Qed.

(** The keys of the groups after one more record. *)
Lemma group_add_ids now k gs s :
  In s (map g_id (group_add now k gs)) <-> In s (map g_id gs) \/ s = status k.
Proof.
  induction gs as [|g gs IH]; simpl.
  - split; [intros [<- | []]; by right | intros [[] | ->]; by left].
  - destruct (String.eqb_spec (g_id g) (status k)) as [Heq|Hne]; simpl.
    + split; [tauto|]. intros [H | ->]; [done|]. by left.
    + rewrite IH. tauto.
Qed.

Lemma group_add_NoDup now k gs :
  NoDup (map g_id gs) -> NoDup (map g_id (group_add now k gs)).
Proof.
  induction gs as [|g gs IH]; simpl; intros Hnd.
  - constructor; [apply not_elem_of_nil | constructor].
  - destruct (String.eqb_spec (g_id g) (status k)) as [Heq|Hne]; simpl; [done|].
    apply NoDup_cons in Hnd as [Hg Hnd]. apply NoDup_cons. split; [|auto].
    rewrite list_elem_of_In, group_add_ids. rewrite list_elem_of_In in Hg.
    intros [H|H]; [done | congruence].
Qed.

(** A group after one more record: an old group of another status, or
    the group of the record's status, one larger or new with count 1. *)
Lemma group_add_In now k gs g' :
  NoDup (map g_id gs) ->
  In g' (group_add now k gs) ->
  (g_id g' <> status k /\ In g' gs)
  \/ (g_id g' = status k /\
      ((exists g, In g gs /\ g_id g = status k /\ g_count g' = g_count g + 1)
       \/ (~ In (status k) (map g_id gs) /\ g_count g' = 1))).
Proof.
  induction gs as [|g gs IH]; simpl; intros Hnd Hin.
  - destruct Hin as [<- | []]. right. split; [done|]. right. split; [tauto|done].
  - apply NoDup_cons in Hnd as [Hg Hnd]. rewrite list_elem_of_In in Hg.
    destruct (String.eqb_spec (g_id g) (status k)) as [Heq|Hne]; simpl in Hin.
    + destruct Hin as [<- | Hin]; simpl.
      * right. split; [done|]. left. exists g. split; [by left|done].
      * left. split; [|by right]. intros E. apply Hg. rewrite Heq, <- E.
        by apply in_map.
    + destruct Hin as [<- | Hin].
      * left. split; [done|by left].
      * destruct (IH Hnd Hin) as [[? ?]|[? [(g0 & ? & ? & ?)|[? ?]]]].
        -- left. split; [done|by right].
        -- right. split; [done|]. left. exists g0. split; [by right|done].
        -- right. split; [done|]. right. split; [|done]. intros [E|E]; [done|tauto].
Qed.

Lemma group_add_inv now seen gs k :
  group_inv seen gs -> group_inv (seen ++ [k]) (group_add now k gs).
Proof.
  intros (Hnd & Hcount & Hall). split; [by apply group_add_NoDup|]. split.
  - intros g' Hin. rewrite members_snoc.
    destruct (group_add_In now k gs g' Hnd Hin)
      as [[Hne Hg]|[Heq [(g & Hg & Hid & Hc)|[Hnone Hc]]]].
    + destruct (Hcount g' Hg). rewrite decide_False by congruence. clear Hin. lia.
    + destruct (Hcount g Hg) as [Hm ?]. rewrite decide_True by congruence.
      rewrite Heq, Hc. rewrite Hid in Hm. clear Hin. lia.
    + rewrite decide_True by congruence. rewrite Hc, Heq.
      rewrite members_zero; [clear Hin; lia|].
      intros k' Hk' E. apply Hnone. rewrite <- E. auto.
  - intros k' Hk'. apply group_add_ids.
    apply in_app_or in Hk' as [Hk' | [<- | []]]; auto.
Qed.

Lemma fold_group_inv now docs : forall seen gs,
  group_inv seen gs ->
  group_inv (seen ++ docs) (fold_left (fun gs k => group_add now k gs) docs gs).
Proof.
  induction docs as [|k docs IH]; intros seen gs H; simpl.
  - by rewrite app_nil_r.
  - replace (seen ++ k :: docs) with ((seen ++ [k]) ++ docs)
      by (by rewrite <- app_assoc).
    apply IH. by apply group_add_inv.
Qed.

Lemma group_stage_inv now docs : group_inv docs (group_stage now docs).
Proof.
  apply (fold_group_inv now docs [] []).
  split; [constructor|]. split; [intros ? []|intros ? []].
Qed.

#[local] Instance by_count_desc_total : Total by_count_desc.
Proof. intros a b. unfold by_count_desc. lia. Qed.

#[local] Instance by_count_desc_trans : Transitive by_count_desc.
Proof. intros a b c. unfold by_count_desc. lia. Qed.

(** The groups of three records with the percents 0, 0 and 100. *)
Lemma example_groups now k1 k2 k3 :
  ActualPercent k1 = 0 -> ActualPercent k2 = 0 -> ActualPercent k3 = 100 ->
  exists x y,
    map finish (group_stage now [k1; k2; k3]) = [x; y]
    /\ summary x = ("Not Started", 2, 0%Q)
    /\ summary y = ("Completed", 1, 100%Q).
Proof.
  intros H1 H2 H3.
  assert (status k1 = "Not Started") as S1 by (unfold status; by rewrite H1).
  assert (status k2 = "Not Started") as S2 by (unfold status; by rewrite H2).
  assert (status k3 = "Completed") as S3 by (unfold status; by rewrite H3).
  unfold group_stage. cbn [fold_left group_add g_id].
  rewrite S1, S2. cbn [String.eqb Ascii.eqb Bool.eqb group_add g_id].
  rewrite S3. cbn [String.eqb Ascii.eqb Bool.eqb group_add g_id map].
  eexists _, _. split; [reflexivity|].
  unfold summary, finish. cbn [id_ count avg_completion g_id g_count g_sum_percent].
  rewrite H1, H2, H3. split; reflexivity.
Qed.

(** A list sorted by count that holds [x] and [y], [x] the larger. *)
Lemma sorted_pair (x y : Bucket) l :
  Permutation l [x; y] -> StronglySorted by_count_desc l ->
  ~ by_count_desc y x -> l = [x; y].
Proof.
  intros Hp Hs Hxy.
  apply Permutation_sym, Permutation_length_2_inv in Hp as [-> | ->]; [done|].
  apply StronglySorted_inv in Hs as [_ Hs]. apply Forall_inv in Hs. done.
Qed.

(** The server hands the groups over in an order of its own. *)
Variable group_order : list Bucket -> list Bucket.
Hypothesis group_order_perm : forall l, Permutation (group_order l) l.
Variable now : Time.

Lemma pipeline_In docs b :
  In b (pipeline group_order now docs) <->
  exists g, In g (group_stage now (match_stage docs)) /\ b = finish g.
Proof.
  unfold pipeline, sort_stage.
  rewrite <- !list_elem_of_In.
  rewrite merge_sort_Permutation, group_order_perm.
  rewrite list_elem_of_In, in_map_iff.
  split; [intros (g & <- & Hg) | intros (g & Hg & ->)]; eauto.
Qed.

Lemma pipeline_sorted docs :
  StronglySorted by_count_desc (pipeline group_order now docs).
Proof. unfold pipeline, sort_stage. apply StronglySorted_merge_sort; apply _. Qed.

Lemma pipeline_count docs b :
  In b (pipeline group_order now docs) ->
  count b = members (id_ b) (match_stage docs) /\ 1 <= count b.
Proof.
  rewrite pipeline_In. intros (g & Hg & ->). simpl.
  by apply (group_stage_inv now (match_stage docs)).
Qed.

Lemma pipeline_complete docs k :
  In k docs -> IsDeleted k = false ->
  exists b, In b (pipeline group_order now docs) /\ id_ b = status k.
Proof.
  intros Hin Hdel.
  assert (In k (match_stage docs)) as Hact.
  { apply list_elem_of_In, list_elem_of_filter. split; [congruence|].
    by apply list_elem_of_In. }
  destruct (group_stage_inv now (match_stage docs)) as (_ & _ & Hall).
  apply Hall, in_map_iff in Hact as (g & Hid & Hg).
  exists (finish g). split; [|done]. apply pipeline_In. eauto.
Qed.

(** C7.  Every record that is not deleted is counted by the bucket of
    the aggregation that carries its status, and the status follows
    the thresholds from the highest down: 0, 1, 24, 25, 49, 50, 99
    and 100 percent give "Not Started", "Behind", "Behind", "At Risk",
    "At Risk", "On Track", "On Track" and "Completed"; in general 100
    and more is "Completed", 50 to 99 "On Track", 25 to 49 "At Risk",
    1 to 24 "Behind" and anything below 1 "Not Started". *)
Theorem classification_boundaries docs k :
  In k docs -> IsDeleted k = false ->
  (exists b, In b (pipeline group_order now docs) /\ id_ b = status k
             /\ 1 <= count b)
  /\ (ActualPercent k = 0 -> status k = "Not Started")
  /\ (ActualPercent k = 1 -> status k = "Behind")
  /\ (ActualPercent k = 24 -> status k = "Behind")
  /\ (ActualPercent k = 25 -> status k = "At Risk")
  /\ (ActualPercent k = 49 -> status k = "At Risk")
  /\ (ActualPercent k = 50 -> status k = "On Track")
  /\ (ActualPercent k = 99 -> status k = "On Track")
  /\ (ActualPercent k = 100 -> status k = "Completed")
  /\ (100 <= ActualPercent k -> status k = "Completed")
  /\ (50 <= ActualPercent k < 100 -> status k = "On Track")
  /\ (25 <= ActualPercent k < 50 -> status k = "At Risk")
  /\ (1 <= ActualPercent k < 25 -> status k = "Behind")
  /\ (ActualPercent k < 1 -> status k = "Not Started").
Proof.
  intros Hin Hdel. split.
  { destruct (pipeline_complete docs k Hin Hdel) as (b & Hb & Hid).
    exists b. split; [done|]. split; [done|]. by apply (pipeline_count docs). }
  rewrite status_cases.
  repeat split; intros H; try rewrite H; try done.
  all: rewrite ?Z.geb_leb;
    repeat match goal with
           | |- context [?a <=? ?b] => destruct (Z.leb_spec a b); try lia
           end; done.
Qed.

(** C8.  Every bucket the aggregation emits counts at least one
    record: its count is the number of records that are not deleted
    and have its status, and one such record exists.  The buckets come
    sorted by count, largest first.  When the records that are not
    deleted have the percents 0, 0 and 100, the buckets are
    "Not Started" with count 2 and average 0, then "Completed" with
    count 1 and average 100. *)
Theorem aggregation_buckets docs :
  (forall b, In b (pipeline group_order now docs) ->
     1 <= count b
     /\ count b = members (id_ b) (match_stage docs)
     /\ exists k, In k docs /\ IsDeleted k = false /\ status k = id_ b)
  /\ StronglySorted by_count_desc (pipeline group_order now docs)
  /\ (map ActualPercent (match_stage docs) = [0; 0; 100] ->
      map summary (pipeline group_order now docs)
      = [("Not Started", 2, 0%Q); ("Completed", 1, 100%Q)]).
Proof.
  split; [|split].
  - intros b Hb. destruct (pipeline_count docs b Hb) as [Hc Hpos].
    split; [done|]. split; [done|].
    unfold members in Hc.
    destruct (filter (fun k => status k = id_ b) (match_stage docs)) as [|k l] eqn:E.
    { simpl in Hc. lia. }
    assert (k ∈ filter (fun k => status k = id_ b) (match_stage docs)) as Hk
      by (rewrite E; left).
    apply list_elem_of_filter in Hk as [Hs Hk].
    apply list_elem_of_filter in Hk as [Hd Hk].
    exists k. split; [by apply list_elem_of_In|]. split; [|done].
    destruct (IsDeleted k); [by destruct Hd | done].
  - apply pipeline_sorted.
  - intros Hp.
    pose proof (pipeline_sorted docs) as Hs.
    assert (Permutation (pipeline group_order now docs)
              (map finish (group_stage now (match_stage docs)))) as Hperm.
    { unfold pipeline, sort_stage.
      rewrite merge_sort_Permutation. apply group_order_perm. }
    destruct (match_stage docs) as [|k1 [|k2 [|k3 [|]]]]; try discriminate Hp.
    injection Hp as H1 H2 H3.
    destruct (example_groups now k1 k2 k3 H1 H2 H3) as (x & y & E & Hx & Hy).
    rewrite E in Hperm.
    rewrite (sorted_pair x y _ Hperm Hs).
    + simpl. by rewrite Hx, Hy.
    + unfold by_count_desc.
      injection Hx as _ -> _. injection Hy as _ -> _. lia.
Qed.
End Analytics.

Lemma classification_boundaries_witness :
  exists b, In b (analytics.pipeline (@rev _) 2000 examples.boundary_records)
            /\ analytics.id_ b = "Behind" /\ 1 <= analytics.count b.
Proof.
  destruct (classification_boundaries (@rev _)
              (fun l => Permutation_sym (Permutation_rev l)) 2000
              examples.boundary_records (examples.kpi 3 24 [] false))
    as [(b & Hb & Hid & Hc) _].
  - simpl. auto 10.
  - reflexivity.
  - exists b. split; [exact Hb|]. split; [exact Hid | exact Hc].
Defined.

Lemma aggregation_buckets_witness :
  map analytics.summary (analytics.pipeline (@rev _) 2000 examples.three_records)
  = [("Not Started", 2, 0%Q); ("Completed", 1, 100%Q)].
Proof.
  destruct (aggregation_buckets (@rev _)
              (fun l => Permutation_sym (Permutation_rev l)) 2000
              examples.three_records) as (_ & _ & H).
  apply H. reflexivity.
Defined.

(** * Further properties of the services *)

(** ** More on the calls into the stores *)

Lemma GetByID_clean c id w k :
  faults w = [] -> view c w !! id = Some k ->
  repository.GetByID c id w = (inl k, w, [EvGetByID c id None]).
Proof.
  intros Hf Hk. unfold repository.GetByID, FindOne, bind, ret, emit, driver_call.
  rewrite Hf. simpl. rewrite Hk. done.
Qed.

Lemma GetByID_missing c id w :
  faults w = [] -> view c w !! id = None ->
  repository.GetByID c id w
  = (inr ErrNoDocuments, w, [EvGetByID c id (Some ErrNoDocuments)]).
Proof.
  intros Hf Hk. unfold repository.GetByID, FindOne, bind, ret, emit, driver_call.
  rewrite Hf. simpl. rewrite Hk. done.
Qed.

(** A read changes nothing but the list of coming failures. *)
Lemma GetByID_readonly c id w r w1 t :
  repository.GetByID c id w = (r, w1, t) -> w1 = with_faults (faults w1) w.
Proof.
  unfold repository.GetByID, FindOne, bind, ret, emit, driver_call.
  destruct w as [co tx bu no cl fa]. simpl.
  destruct fa as [|[?|] ?]; simpl.
  all: try (destruct (view c _ !! id)); simpl; intros [= <- <- <-]; done.
Qed.

Lemma UploadFile_stored filename data by_ ct w fileID w1 t :
  repository.UploadFile filename data by_ ct w = (inl fileID, w1, t) ->
  fileID = next_oid w /\
  bucket w1 = <[fileID := {| gf_filename := filename; gf_data := data;
                             gf_uploadedBy := by_; gf_uploadedAt := clock w;
                             gf_contentType := ct |}]> (bucket w).
Proof.
  unfold repository.UploadFile, UploadFromStream. run_driver w.
  all: intros [= <- <-]; simpl; done.
Qed.

Lemma DeleteFile_deleted fileID w w1 t :
  repository.DeleteFile fileID w = (None, w1, t) -> is_Some (bucket w !! fileID).
Proof.
  unfold repository.DeleteFile, BucketDelete. run_driver w.
  all: try (destruct (bucket w !! fileID) eqn:E); simpl.
  all: intros [= <-]; eauto.
Qed.

Lemma DownloadFile_present fileID w g :
  faults w = [] -> bucket w !! fileID = Some g ->
  repository.DownloadFile fileID w = (inl g, w, [EvDownloadFile fileID None]).
Proof.
  intros Hf Hg. unfold repository.DownloadFile, OpenDownloadStream,
    bind, ret, emit, driver_call.
  rewrite Hf. simpl. rewrite Hg. done.
Qed.

Lemma CommitTransaction_outcome w err w1 t :
  CommitTransaction w = (err, w1, t) ->
  match err with
  | None => exists m, txn w = Some m /\ collection w1 = m /\ txn w1 = None
  | Some _ => same_docs w w1
  end.
Proof.
  unfold CommitTransaction, same_docs. run_driver w.
  all: try (destruct (txn w) eqn:E); simpl.
  all: intros [= <- <- <-]; simpl; eauto.
Qed.

Lemma SoftDelete_spec c id by_ w err w1 t :
  repository.SoftDelete c id by_ w = (err, w1, t) ->
  t = [EvSoftDelete id err] /\ bucket w1 = bucket w /\
  match err with
  | Some _ => same_docs w w1
  | None =>
      exists k, view c w !! id = Some k /\ IsDeleted k = false /\
        let k' := set_Metadata (set_updated by_ (clock w) (KPIMetadata k))
                    (set_IsDeleted true k) in
        collection w1 = collection (store c (<[id := k']> (view c w)) w) /\
        txn w1 = txn (store c (<[id := k']> (view c w)) w)
  end.
Proof.
  unfold repository.SoftDelete, bind, emit, ret, Now. simpl.
  step_UpdateOne E. intros [= <- <- <-]. simpl.
  split; [done|]. split; [done|].
  finish_update E k.
  exists k. apply negb_true_iff in Hf.
  destruct (store_clock c
              (<[id := set_Metadata (set_updated by_ (clock w) (KPIMetadata k))
                         (set_IsDeleted true k)]> (view c w))
              (clock w + 1) w) as [Ec Et].
  split; [exact Hk|]. split; [exact Hf|].
  split; [rewrite Hc; exact Ec | rewrite Ht; exact Et].
Qed.

(** A write to a live record leaves a deleted one as it is. *)
Lemma insert_live_keeps (m : gmap N KPIDevelopment) id k0 v j k :
  m !! id = Some k0 -> IsDeleted k0 = false ->
  m !! j = Some k -> IsDeleted k = true ->
  <[id := v]> m !! j = Some k.
Proof.
  intros H0 Hl Hj Hd. rewrite lookup_insert_ne; [done|]. intros ->. congruence.
Qed.

(** ** The scans of an attachment list *)

Lemma scan_attachments_none fileID l :
  (forall a, In a l -> FileID a <> fileID) ->
  services.scan_attachments fileID l = (false, "").
Proof.
  induction l as [|x l IH]; simpl; intros H; [done|].
  destruct (N.eqb_spec (FileID x) fileID) as [Heq|Hne].
  - destruct (H x); auto.
  - apply IH. auto.
Qed.

Lemma scan_attachments_found fileID l name :
  services.scan_attachments fileID l = (true, name) ->
  exists a, In a l /\ FileID a = fileID /\ Filename a = name.
Proof.
  induction l as [|x l IH]; simpl; [discriminate|].
  destruct (N.eqb_spec (FileID x) fileID) as [Heq|Hne].
  - intros [= <-]. exists x. auto.
  - intros H. destruct (IH H) as (a & ? & ? & ?). exists a. auto.
Qed.

Lemma scan_attachments_false fileID l name :
  services.scan_attachments fileID l = (false, name) ->
  forall a, In a l -> FileID a <> fileID.
Proof.
  induction l as [|x l IH]; simpl; [done|].
  destruct (N.eqb_spec (FileID x) fileID) as [Heq|Hne]; [discriminate|].
  intros H a [<- | Ha]; auto.
Qed.

Lemma find_attachment_some fileID l a :
  In a l -> FileID a = fileID -> is_Some (services.find_attachment fileID l).
Proof.
  intros Hin Hid. induction l as [|x l IH]; simpl; [destruct Hin|].
  destruct (N.eqb_spec (FileID x) fileID); [eauto|].
  destruct Hin as [-> | Hin]; [done | auto].
Qed.

(** Pulling a file id that only the last entry has gives the list
    before that entry. *)
Lemma pull_pushed fileID (l : list Attachment) a :
  (forall x, In x l -> FileID x <> fileID) -> FileID a = fileID ->
  filter (fun x => FileID x <> fileID) (l ++ [a]) = l.
Proof.
  intros Hno Ha. rewrite filter_app, filter_cons, filter_nil.
  rewrite decide_False by (intros H; by apply H).
  rewrite app_nil_r.
  induction l as [|x l IH]; [done|].
  rewrite filter_cons, decide_True by (apply Hno; by left).
  f_equal. apply IH. intros y Hy. apply Hno. by right.
Qed.

(** ** Upload, in full *)

(** Every run of an upload: an error and the records as before, or the
    new reference, stored in the record and in the bucket. *)
Lemma upload_run w kpiID filename data by_ ct :
  let r := services.UploadAttachment kpiID filename data by_ ct w in
  match value r with
  | inr _ => collection (final r) = collection w
  | inl a =>
      Filename a = filename
      /\ FileID a = next_oid w
      /\ bucket (final r)
         = <[FileID a := {| gf_filename := filename; gf_data := data;
                            gf_uploadedBy := by_; gf_uploadedAt := clock w;
                            gf_contentType := ct |}]> (bucket w)
      /\ exists k k',
           collection w !! kpiID = Some k /\ IsDeleted k = false
           /\ collection (final r) = <[kpiID := k']> (collection w)
           /\ reattached by_ (Attachments k ++ [a]) k k'
  end.
Proof.
  intros r; subst r.
  unfold services.UploadAttachment, bind, ret, value, final, trace. simpl.
  destruct (repository.GetByID Background kpiID w) as [[r w0] t] eqn:Hget.
  pose proof (GetByID_readonly _ _ _ _ _ _ Hget) as Hw0.
  apply GetByID_spec in Hget as (-> & [? ?] & ? & Hk).
  destruct r as [k|err]; simpl; [|congruence].
  destruct (repository.UploadFile filename data by_ ct w0) as [[r w1] t] eqn:Hup.
  pose proof Hup as Hup'. apply UploadFile_spec in Hup' as (-> & [? ?] & ?).
  destruct r as [fileID|err]; simpl; [|congruence].
  apply UploadFile_stored in Hup as [Hid Hb].
  rewrite Hw0 in Hid, Hb. simpl in Hid, Hb.
  exec_step. destruct r as [err|]; simpl.
  { exec_step. simpl. frame. }
  specialize (Hk k eq_refl). simpl in Hk.
  lazymatch goal with H : exists k, view Background w1 !! kpiID = Some k /\ _ |- _ =>
    destruct H as (k1 & Hk1 & Hd1 & Hc1 & _) end.
  simpl in *.
  assert (k1 = k) as -> by congruence.
  split; [done|]. split; [done|]. split; [congruence|].
  exists k, (repository.touch by_ (clock w1)
               (repository.push {| FileID := fileID; Filename := filename |} k)).
  split; [done|]. split; [done|]. split; [congruence|]. repeat split.
Qed.

(** The run of an upload to a live record when the driver works. *)
Lemma UploadAttachment_clean w kpiID k filename data by_ ct :
  faults w = [] -> collection w !! kpiID = Some k -> IsDeleted k = false ->
  let a := {| FileID := next_oid w; Filename := filename |} in
  services.UploadAttachment kpiID filename data by_ ct w
  = (inl a,
     {| collection :=
          <[kpiID := repository.touch by_ (clock w + 1) (repository.push a k)]>
            (collection w);
        txn := txn w;
        bucket := <[next_oid w := {| gf_filename := filename; gf_data := data;
                                     gf_uploadedBy := by_; gf_uploadedAt := clock w;
                                     gf_contentType := ct |}]> (bucket w);
        next_oid := (next_oid w + 1)%N;
        clock := clock w + 2;
        faults := [] |},
     [EvGetByID Background kpiID None; EvUploadFile filename (inl (next_oid w));
      EvAddAttachment Background kpiID a None]).
Proof.
  intros Hf Hk Hlive a.
  unfold services.UploadAttachment, bind.
  rewrite (GetByID_clean Background kpiID w k Hf Hk). simpl.
  unfold repository.UploadFile, UploadFromStream, repository.AddAttachment, UpdateOne,
    bind, ret, emit, Now, NewObjectID, driver_call. simpl.
  rewrite Hf. simpl. rewrite Hf. simpl. rewrite Hk. simpl. rewrite Hlive. simpl.
  unfold with_collection. simpl. rewrite Hf.
  replace (clock w + 1 + 1) with (clock w + 2) by lia. done.
Qed.

(** X1.  An upload that returns an error has changed no record:
    whichever step failed, the collection is as before the call. *)
Theorem failed_upload_keeps_records w kpiID filename data by_ ct e :
  let r := services.UploadAttachment kpiID filename data by_ ct w in
  value r = inr e -> collection (final r) = collection w.
Proof.
  intros r Hv. pose proof (upload_run w kpiID filename data by_ ct) as H.
  cbv zeta in H. fold r in H. by rewrite Hv in H.
Qed.

Lemma failed_upload_keeps_records_witness :
  collection (final (services.UploadAttachment 1 "a.pdf" "data" "ann" "application/pdf"
                       examples.append_and_cleanup_fail))
  = collection examples.append_and_cleanup_fail.
Proof.
  apply (failed_upload_keeps_records examples.append_and_cleanup_fail 1 "a.pdf" "data"
           "ann" "application/pdf"
           "failed to add attachment to KPI: write concern timeout").
  reflexivity.
Defined.

(** X2.  An upload that returns a reference has minted the next object
    id for it, stored the bytes under that id with the file name, the
    uploader, the upload time and the content type, and appended the
    reference at the end of the record's list, the record being live
    and otherwise unchanged but for the author of the change; fetching
    the id afterwards gives the bytes back when the driver works.  On a
    live record, and when the driver works, an upload does return a
    reference. *)
Theorem upload_success w kpiID filename data by_ ct :
  let r := services.UploadAttachment kpiID filename data by_ ct w in
  let file := {| gf_filename := filename; gf_data := data; gf_uploadedBy := by_;
                 gf_uploadedAt := clock w; gf_contentType := ct |} in
  (forall a, value r = inl a ->
     Filename a = filename
     /\ FileID a = next_oid w
     /\ bucket (final r) = <[FileID a := file]> (bucket w)
     /\ (exists k k',
           collection w !! kpiID = Some k /\ IsDeleted k = false
           /\ collection (final r) = <[kpiID := k']> (collection w)
           /\ reattached by_ (Attachments k ++ [a]) k k')
     /\ (faults (final r) = [] ->
         value (services.DownloadAttachment (FileID a) (final r)) = inl file))
  /\ (forall k, faults w = [] -> collection w !! kpiID = Some k -> IsDeleted k = false ->
        exists a, value r = inl a).
Proof.
  intros r file. split.
  - intros a Hv. pose proof (upload_run w kpiID filename data by_ ct) as H.
    cbv zeta in H. fold r in H. rewrite Hv in H. destruct H as (Hn & Hid & Hb & Hrec).
    repeat (split; [done|]).
    intros Hf. unfold services.DownloadAttachment.
    rewrite (DownloadFile_present (FileID a) (final r) file Hf); [done|].
    rewrite Hb. apply lookup_insert_eq.
  - intros k Hf Hk Hlive. subst r.
    rewrite (UploadAttachment_clean w kpiID k filename data by_ ct Hf Hk Hlive).
    eauto.
Qed.

Lemma upload_success_witness :
  let r := services.UploadAttachment 1 "a.pdf" "data" "bob" "text/plain"
             examples.at_forty in
  exists a, value r = inl a /\ FileID a = 100%N
            /\ value (services.DownloadAttachment (FileID a) (final r))
               = inl {| gf_filename := "a.pdf"; gf_data := "data";
                        gf_uploadedBy := "bob"; gf_uploadedAt := 2000;
                        gf_contentType := "text/plain" |}.
Proof.
  intros r.
  destruct (upload_success examples.at_forty 1 "a.pdf" "data" "bob" "text/plain")
    as [Heff Hex].
  destruct (Hex (examples.kpi 1 40 [examples.cv] false)) as [a Ha];
    [reflexivity | reflexivity | reflexivity |].
  destruct (Heff a Ha) as (_ & Hid & _ & _ & Hd).
  exists a. split; [exact Ha|]. split; [exact Hid|].
  apply Hd. vm_compute. reflexivity.
Defined.

(** ** Delete, in full *)

(** Every run of a delete: an error and the bucket as before, or the
    reference pulled from the live record and the blob deleted. *)
Lemma delete_run w kpiID fileID by_ :
  let r := services.DeleteAttachment kpiID fileID by_ w in
  match value r with
  | Some _ => bucket (final r) = bucket w
  | None =>
      exists kpi kpi',
        collection w !! kpiID = Some kpi
        /\ IsDeleted kpi = false
        /\ (exists a, In a (Attachments kpi) /\ FileID a = fileID)
        /\ is_Some (bucket w !! fileID)
        /\ bucket (final r) = delete fileID (bucket w)
        /\ collection (final r) = <[kpiID := kpi']> (collection w)
        /\ reattached by_ (filter (fun x => FileID x <> fileID) (Attachments kpi))
             kpi kpi'
  end.
Proof.
  intros r; subst r.
  unfold services.DeleteAttachment, bind, ret, value, final, trace. simpl.
  exec_step. destruct r as [kpi|err]; simpl; [|congruence].
  destruct (services.scan_attachments fileID (Attachments kpi)) as [[|] name] eqn:Hscan;
    simpl; [|congruence].
  exec_step. destruct r as [err|]; simpl; [congruence|].
  destruct (repository.DeleteFile fileID w1) as [[r w2] t] eqn:Hblob.
  pose proof Hblob as Hdel. apply DeleteFile_spec in Hdel as (-> & [? ?] & ?).
  destruct r as [err|]; simpl.
  { exec_step. destruct r; simpl; congruence. }
  apply DeleteFile_deleted in Hblob.
  lazymatch goal with H : forall k, inl kpi = inl k -> _ |- _ =>
    specialize (H kpi eq_refl); simpl in H; rename H into Hkpi end.
  lazymatch goal with H : exists k, view Background w0 !! kpiID = Some k /\ _ |- _ =>
    destruct H as (k1 & Hk1 & Hd1 & Hc1 & _) end.
  simpl in *.
  assert (k1 = kpi) as -> by congruence.
  exists kpi, (repository.touch by_ (clock w0) (repository.pull fileID kpi)).
  split; [done|]. split; [done|].
  split. { apply scan_attachments_found in Hscan as (a & ? & ? & ?). eauto. }
  split; [congruence|]. split; [congruence|]. split; [congruence|].
  repeat split.
Qed.

(** On a live record that lists the file id, with the blob stored and
    the driver working, a delete succeeds. *)
Lemma delete_clean w kpiID fileID by_ kpi a :
  faults w = [] -> collection w !! kpiID = Some kpi -> IsDeleted kpi = false ->
  In a (Attachments kpi) -> FileID a = fileID -> is_Some (bucket w !! fileID) ->
  value (services.DeleteAttachment kpiID fileID by_ w) = None.
Proof.
  intros Hf Hk Hlive Ha Hfid [g Hg].
  destruct (services.scan_attachments fileID (Attachments kpi)) as [[|] name] eqn:Hscan.
  2:{ destruct (scan_attachments_false _ _ _ Hscan a Ha Hfid). }
  unfold services.DeleteAttachment, bind, value.
  rewrite (GetByID_clean Background kpiID w kpi Hf Hk). simpl. rewrite Hscan. simpl.
  unfold repository.RemoveAttachment, UpdateOne, repository.DeleteFile, BucketDelete,
    bind, ret, emit, Now, driver_call. simpl.
  rewrite Hf. simpl. rewrite Hk. simpl. rewrite Hlive. simpl.
  rewrite Hf. simpl. rewrite Hg. simpl. done.
Qed.

Lemma delete_unknown_run w kpiID fileID by_ kpi :
  collection w !! kpiID = Some kpi ->
  (forall a, In a (Attachments kpi) -> FileID a <> fileID) ->
  exists e w' err,
    services.DeleteAttachment kpiID fileID by_ w
    = (Some e, w', [EvGetByID Background kpiID err])
    /\ collection w' = collection w /\ bucket w' = bucket w.
Proof.
  intros Hk Hno.
  unfold services.DeleteAttachment, bind, ret. simpl.
  exec_step. destruct r as [k|err]; simpl.
  - lazymatch goal with H : forall k0, inl k = inl k0 -> _ |- _ =>
      specialize (H k eq_refl); simpl in H; rename H into Hk' end.
    assert (k = kpi) as -> by congruence.
    rewrite (scan_attachments_none _ _ Hno). simpl. eauto 10.
  - eauto 10.
Qed.

(** X3.  Deleting a file id that the record does not list fails after
    the one read of the record: no document is updated and no blob is
    deleted, so the collection and the bucket are as before; when the
    driver works the error names the file id and the record. *)
Theorem delete_unknown_attachment w kpiID fileID by_ kpi :
  collection w !! kpiID = Some kpi ->
  (forall a, In a (Attachments kpi) -> FileID a <> fileID) ->
  let r := services.DeleteAttachment kpiID fileID by_ w in
  (exists e, value r = Some e)
  /\ (exists err, trace r = [EvGetByID Background kpiID err])
  /\ collection (final r) = collection w
  /\ bucket (final r) = bucket w
  /\ (faults w = [] ->
      value r = Some ("attachment with file_id " +:+ Hex fileID +:+
                      " not found in KPI " +:+ Hex kpiID)).
Proof.
  intros Hk Hno r.
  destruct (delete_unknown_run w kpiID fileID by_ kpi Hk Hno)
    as (e & w' & err & Hrun & Hc & Hb).
  subst r. split; [|split; [|split; [|split]]].
  1-4: rewrite Hrun; simpl; eauto.
  intros Hf. unfold services.DeleteAttachment, bind, value.
  rewrite (GetByID_clean Background kpiID w kpi Hf Hk). simpl.
  rewrite (scan_attachments_none _ _ Hno). done.
Qed.

Lemma delete_unknown_attachment_witness :
  let r := services.DeleteAttachment 1 9 "bob" examples.at_forty in
  value r = Some ("attachment with file_id 000000000000000000000009" +:+
                  " not found in KPI 000000000000000000000001")
  /\ collection (final r) = collection examples.at_forty
  /\ bucket (final r) = bucket examples.at_forty.
Proof.
  intros r.
  destruct (delete_unknown_attachment examples.at_forty 1 9 "bob"
              (examples.kpi 1 40 [examples.cv] false))
    as (_ & _ & Hc & Hb & Hv).
  - reflexivity.
  - intros a [<- | []]. vm_compute. discriminate.
  - split; [exact (Hv eq_refl)|]. split; [exact Hc | exact Hb].
Defined.



(** X5.  A delete that returns no error has found the record live, with
    an entry of the file id, and the blob stored; afterwards the blob is
    gone from the bucket and the record lists its former entries
    without those of the file id, in their order, the record being
    otherwise unchanged but for the author of the change.  With these
    conditions, and when the driver works, a delete does succeed. *)
Theorem delete_success w kpiID fileID by_ :
  let r := services.DeleteAttachment kpiID fileID by_ w in
  (value r = None ->
   exists kpi kpi',
     collection w !! kpiID = Some kpi
     /\ IsDeleted kpi = false
     /\ (exists a, In a (Attachments kpi) /\ FileID a = fileID)
     /\ is_Some (bucket w !! fileID)
     /\ bucket (final r) = delete fileID (bucket w)
     /\ collection (final r) = <[kpiID := kpi']> (collection w)
     /\ reattached by_ (filter (fun x => FileID x <> fileID) (Attachments kpi)) kpi kpi')
  /\ (forall kpi a,
        faults w = [] -> collection w !! kpiID = Some kpi -> IsDeleted kpi = false ->
        In a (Attachments kpi) -> FileID a = fileID -> is_Some (bucket w !! fileID) ->
        value r = None).
Proof.
  intros r. split.
  - intros Hv. pose proof (delete_run w kpiID fileID by_) as H.
    cbv zeta in H. fold r in H. by rewrite Hv in H.
  - intros kpi a. apply delete_clean.
Qed.

Lemma delete_success_witness :
  let r := services.DeleteAttachment 1 7 "bob" examples.at_forty in
  value r = None
  /\ bucket (final r) !! 7%N = None
  /\ Attachments <$> (collection (final r) !! 1%N) = Some [].
Proof.
  intros r.
  destruct (delete_success examples.at_forty 1 7 "bob") as [Heff Hex].
  assert (Hv : value r = None).
  { apply (Hex (examples.kpi 1 40 [examples.cv] false) examples.cv);
      try reflexivity; [by left | vm_compute; eauto]. }
  destruct (Heff Hv) as (kpi & kpi' & Hk & _ & _ & _ & Hb & Hc & Hre & _).
  subst r. split; [exact Hv|]. split.
  - rewrite Hb. apply lookup_delete_eq.
  - rewrite Hc, lookup_insert_eq. simpl. rewrite Hre.
    vm_compute in Hk. injection Hk as <-. reflexivity.
Defined.

(** X6.  When the driver works, uploading a file to a live record and
    then deleting the reference the upload returned succeeds twice and
    restores both stores: the bucket is as before the upload, and the
    record has its former attachment list, itself unchanged but for the
    author of the change.  The new id is assumed to be unused so far,
    in the bucket and in the record's list. *)
Theorem upload_then_delete w kpiID k filename data by_ ct :
  faults w = [] -> collection w !! kpiID = Some k -> IsDeleted k = false ->
  bucket w !! next_oid w = None ->
  (forall x, In x (Attachments k) -> FileID x <> next_oid w) ->
  let u := services.UploadAttachment kpiID filename data by_ ct w in
  let d := services.DeleteAttachment kpiID (next_oid w) by_ (final u) in
  value u = inl {| FileID := next_oid w; Filename := filename |}
  /\ value d = None
  /\ bucket (final d) = bucket w
  /\ exists k', collection (final d) = <[kpiID := k']> (collection w)
                /\ reattached by_ (Attachments k) k k'.
Proof.
  intros Hf Hk Hlive Hfresh Hno u d.
  pose proof (UploadAttachment_clean w kpiID k filename data by_ ct Hf Hk Hlive) as Hu.
  fold u in Hu. simpl in Hu.
  set (a := {| FileID := next_oid w; Filename := filename |}) in *.
  assert (Hv : value u = inl a) by (by rewrite Hu).
  assert (Hc1 : collection (final u)
                = <[kpiID := repository.touch by_ (clock w + 1) (repository.push a k)]>
                    (collection w)) by (by rewrite Hu).
  assert (Hb1 : bucket (final u)
                = <[next_oid w := {| gf_filename := filename; gf_data := data;
                                     gf_uploadedBy := by_; gf_uploadedAt := clock w;
                                     gf_contentType := ct |}]> (bucket w))
    by (by rewrite Hu).
  assert (Hf1 : faults (final u) = []) by (by rewrite Hu).
  split; [done|]. subst d. clear Hu Hv.
  generalize dependent (final u). intros w1 Hc1 Hb1 Hf1.
  assert (Hnone : value (services.DeleteAttachment kpiID (next_oid w) by_ w1) = None).
  { apply (delete_clean w1 kpiID (next_oid w) by_
             (repository.touch by_ (clock w + 1) (repository.push a k)) a).
    - done.
    - rewrite Hc1. apply lookup_insert_eq.
    - done.
    - simpl. apply in_or_app. right. by left.
    - done.
    - rewrite Hb1, lookup_insert_eq. eauto. }
  split; [done|].
  pose proof (delete_run w1 kpiID (next_oid w) by_) as Hrun. cbv zeta in Hrun.
  rewrite Hnone in Hrun.
  destruct Hrun as (kpi & kpi' & Hkpi & _ & _ & _ & Hb & Hc & Hre).
  rewrite Hc1, lookup_insert_eq in Hkpi. injection Hkpi as <-.
  split.
  { rewrite Hb, Hb1, delete_insert_eq. by apply delete_id. }
  exists kpi'. split.
  { rewrite Hc, Hc1. apply insert_insert_eq. }
  simpl in Hre. rewrite pull_pushed in Hre by done.
  destruct Hre as (? & ? & ? & ? & ? & ? & ? & ? & ? & ?). repeat split; done.
Qed.

Lemma upload_then_delete_witness :
  let u := services.UploadAttachment 1 "a.pdf" "data" "bob" "text/plain"
             examples.at_forty in
  let d := services.DeleteAttachment 1 100 "bob" (final u) in
  value d = None
  /\ bucket (final d) = bucket examples.at_forty
  /\ exists k', collection (final d) !! 1%N = Some k'
                /\ Attachments k' = [examples.cv].
Proof.
  intros u d.
  destruct (upload_then_delete examples.at_forty 1
              (examples.kpi 1 40 [examples.cv] false) "a.pdf" "data" "bob" "text/plain")
    as (_ & Hd & Hb & k' & Hc & Hre & _).
  - reflexivity.
  - reflexivity.
  - reflexivity.
  - reflexivity.
  - intros x [<- | []]. vm_compute. discriminate.
  - split; [exact Hd|]. split; [exact Hb|].
    exists k'. split; [|exact Hre].
    transitivity (<[1%N := k']> (collection examples.at_forty) !! 1%N);
      [exact (f_equal (fun m => m !! 1%N) Hc) | apply lookup_insert_eq].
Defined.

(** ** Transfer, in full *)

(** Every run of a transfer: an error and the committed records as
    before, or both updates installed by the commit. *)
Lemma transfer_run w fromKPIID toKPIID fileID by_ :
  let r := services.TransferAttachmentBetweenKPIs fromKPIID toKPIID fileID by_ w in
  bucket (final r) = bucket w /\
  match value r with
  | Some _ => collection (final r) = collection w
  | None =>
      txn (final r) = None /\
      exists src src' dst dst' a,
        collection w !! fromKPIID = Some src /\ IsDeleted src = false
        /\ services.find_attachment fileID (Attachments src) = Some a
        /\ reattached by_ (filter (fun x => FileID x <> fileID) (Attachments src)) src src'
        /\ <[fromKPIID := src']> (collection w) !! toKPIID = Some dst
        /\ IsDeleted dst = false
        /\ reattached by_ (Attachments dst ++ [a]) dst dst'
        /\ collection (final r)
           = <[toKPIID := dst']> (<[fromKPIID := src']> (collection w))
  end.
Proof.
  intros r; subst r.
  unfold services.TransferAttachmentBetweenKPIs, services.transfer_in_session,
    EndSession, bind, ret, value, final, trace. simpl.
  exec_step. destruct r as [err|]; simpl; [split; congruence|].
  exec_step. destruct r as [err|]; simpl; [split; congruence|].
  lazymatch goal with H : None = None -> txn w1 = _ |- _ =>
    specialize (H eq_refl); rename H into Htx1 end.
  exec_step. destruct r as [fromKPI|err]; simpl;
    [|exec_step; simpl; split; congruence].
  exec_step. destruct r as [toKPI|err]; simpl;
    [|exec_step; simpl; split; congruence].
  assert (Htx3 : txn w3 = Some (collection w0)) by congruence.
  assert (Hc3 : collection w3 = collection w) by congruence.
  lazymatch goal with H : forall k, inl fromKPI = inl k -> _ |- _ =>
    specialize (H fromKPI eq_refl); rename H into Hfrom end.
  unfold view in Hfrom. rewrite Htx1 in Hfrom.
  destruct (services.find_attachment fileID (Attachments fromKPI)) as [att|] eqn:Hfind;
    simpl; [|exec_step; simpl; split; congruence].
  exec_step. destruct r as [err|]; simpl.
  { exec_step. simpl. unfold same_docs in *.
    repeat match goal with H : _ /\ _ |- _ => destruct H end. split; congruence. }
  lazymatch goal with H : exists k, view SessionCtx w3 !! fromKPIID = Some k /\ _ |- _ =>
    destruct H as (k & Hk & Hlive & Hc4 & Ht4) end.
  unfold view in Hk, Hc4, Ht4. rewrite Htx3 in Hk, Hc4, Ht4.
  unfold store in Hc4, Ht4. rewrite Htx3 in Hc4, Ht4. simpl in Hc4, Ht4.
  assert (k = fromKPI) as -> by congruence.
  exec_step. destruct r as [err|]; simpl.
  { exec_step. simpl. unfold same_docs in *.
    repeat match goal with H : _ /\ _ |- _ => destruct H end. split; congruence. }
  lazymatch goal with H : exists k, view SessionCtx w4 !! toKPIID = Some k /\ _ |- _ =>
    destruct H as (k2 & Hk2 & Hlive2 & Hc5 & Ht5) end.
  unfold view in Hk2, Hc5, Ht5. rewrite Ht4 in Hk2, Hc5, Ht5.
  unfold store in Hc5, Ht5. rewrite Ht4 in Hc5, Ht5. simpl in Hc5, Ht5.
  destruct (CommitTransaction w5) as [[r w6] t] eqn:Hcommit.
  pose proof (CommitTransaction_outcome _ _ _ _ Hcommit) as Hout.
  apply CommitTransaction_spec in Hcommit as (-> & ?).
  destruct r as [err|]; simpl.
  { exec_step. simpl. unfold same_docs in *.
    repeat match goal with H : _ /\ _ |- _ => destruct H end. split; congruence. }
  destruct Hout as (m & Hm & Hc6 & Ht6).
  split; [congruence|]. split; [done|].
  exists fromKPI, (repository.touch by_ (clock w3) (repository.pull fileID fromKPI)),
    k2, (repository.touch by_ (clock w4) (repository.push att k2)), att.
  split; [congruence|]. split; [done|]. split; [done|].
  split; [repeat split|].
  split; [congruence|]. split; [done|].
  split; [repeat split|].
  congruence.
Qed.

(** X7.  A transfer never changes the bucket, and a transfer that
    returns an error, whichever step failed, the commit included, leaves
    the committed collection exactly as before the call. *)
Theorem transfer_failure_is_clean w fromKPIID toKPIID fileID by_ :
  let r := services.TransferAttachmentBetweenKPIs fromKPIID toKPIID fileID by_ w in
  bucket (final r) = bucket w
  /\ (forall e, value r = Some e -> collection (final r) = collection w).
Proof.
  intros r. destruct (transfer_run w fromKPIID toKPIID fileID by_) as [Hb H].
  fold r in Hb, H. split; [done|]. intros e He. by rewrite He in H.
Qed.

Lemma transfer_failure_is_clean_witness :
  let r := services.TransferAttachmentBetweenKPIs 1 2 7 "bob"
             examples.transfer_to_deleted in
  bucket (final r) = bucket examples.transfer_to_deleted
  /\ collection (final r) = collection examples.transfer_to_deleted.
Proof.
  intros r.
  destruct (transfer_failure_is_clean examples.transfer_to_deleted 1 2 7 "bob")
    as [Hb Hc].
  split; [exact Hb|].
  apply (Hc ("failed to add attachment to destination KPI: " +:+
             "no document found with id 000000000000000000000002")).
  reflexivity.
Defined.

(** X8.  A transfer between two different records that returns no error
    has found both records live and the reference in the source;
    afterwards the source lists its former entries without those of the
    file id, the destination its former entries followed by the
    reference, both otherwise unchanged but for the author of the
    change; every other record and the bucket are as before and no
    transaction is left open.  With two live records, the reference in
    the source and the driver working, the transfer does succeed. *)
Theorem transfer_success w fromKPIID toKPIID fileID by_ :
  fromKPIID <> toKPIID ->
  let r := services.TransferAttachmentBetweenKPIs fromKPIID toKPIID fileID by_ w in
  (value r = None ->
   exists src dst a src' dst',
     collection w !! fromKPIID = Some src /\ IsDeleted src = false
     /\ collection w !! toKPIID = Some dst /\ IsDeleted dst = false
     /\ In a (Attachments src) /\ FileID a = fileID
     /\ collection (final r) !! fromKPIID = Some src'
     /\ reattached by_ (filter (fun x => FileID x <> fileID) (Attachments src)) src src'
     /\ collection (final r) !! toKPIID = Some dst'
     /\ reattached by_ (Attachments dst ++ [a]) dst dst'
     /\ (forall j, j <> fromKPIID -> j <> toKPIID ->
           collection (final r) !! j = collection w !! j)
     /\ bucket (final r) = bucket w
     /\ txn (final r) = None)
  /\ (forall src dst a,
        faults w = [] ->
        collection w !! fromKPIID = Some src -> IsDeleted src = false ->
        collection w !! toKPIID = Some dst -> IsDeleted dst = false ->
        In a (Attachments src) -> FileID a = fileID ->
        value r = None).
Proof.
  intros Hne r. split.
  - intros Hv. destruct (transfer_run w fromKPIID toKPIID fileID by_) as [Hb H].
    fold r in Hb, H. rewrite Hv in H.
    destruct H as (Ht & src & src' & dst & dst' & a & Hs & Hls & Hfind & Hrs & Hd & Hld
                   & Hrd & Hc).
    rewrite lookup_insert_ne in Hd by done.
    apply find_attachment_In in Hfind as [Hin Hid].
    exists src, dst, a, src', dst'.
    repeat (split; [done|]).
    split. { rewrite Hc, lookup_insert_ne, lookup_insert_eq by done. done. }
    split; [done|].
    split. { rewrite Hc. apply lookup_insert_eq. }
    split; [done|].
    split; [|done].
    intros j H1 H2. rewrite Hc, !lookup_insert_ne by done. done.
  - intros src dst a Hf Hs Hls Hd Hld Hin Hid.
    destruct (find_attachment_some fileID (Attachments src) a Hin Hid) as [a' Hfind].
    subst r.
    unfold services.TransferAttachmentBetweenKPIs, services.transfer_in_session,
      StartSession, StartTransaction, CommitTransaction, AbortTransaction, EndSession,
      repository.GetByID, FindOne, repository.RemoveAttachment,
      repository.AddAttachment, UpdateOne,
      bind, ret, emit, Now, driver_call, value, view, store. simpl.
    repeat (rewrite ?Hf, ?Hs, ?Hd; simpl).
    rewrite Hfind. simpl.
    repeat (rewrite ?Hf, ?Hs, ?Hls; simpl).
    rewrite lookup_insert_ne by done.
    repeat (rewrite ?Hf, ?Hd, ?Hld; simpl). done.
Qed.

Lemma transfer_success_witness :
  let r := services.TransferAttachmentBetweenKPIs 1 2 7 "bob" examples.two_live in
  value r = None
  /\ Attachments <$> (collection (final r) !! 1%N) = Some []
  /\ Attachments <$> (collection (final r) !! 2%N) = Some [examples.cv].
Proof.
  intros r.
  destruct (transfer_success examples.two_live 1 2 7 "bob") as [Heff Hex];
    [discriminate|].
  assert (Hv : value r = None).
  { apply (Hex (examples.kpi 1 10 [examples.cv] false) (examples.kpi 2 0 [] false)
             examples.cv); try reflexivity. by left. }
  destruct (Heff Hv)
    as (src & dst & a & src' & dst' & Hs & _ & Hd & _ & Hin & _ & Hs' & Hrs & Hd' & Hrd & _).
  vm_compute in Hs. injection Hs as <-. vm_compute in Hd. injection Hd as <-.
  destruct Hin as [<- | []].
  split; [exact Hv|]. subst r. split.
  - rewrite Hs'. simpl. destruct Hrs as [-> _]. reflexivity.
  - rewrite Hd'. simpl. destruct Hrd as [-> _]. reflexivity.
Defined.

(** ** Soft-deleted records *)

Lemma delete_keeps_soft_deleted w kpiID fileID by_ j k :
  collection w !! j = Some k -> IsDeleted k = true ->
  collection (final (services.DeleteAttachment kpiID fileID by_ w)) !! j = Some k.
Proof.
  intros Hj Hd.
  unfold services.DeleteAttachment, bind, ret, value, final, trace. simpl.
  exec_step. destruct r as [kpi|err]; simpl; [|congruence].
  destruct (services.scan_attachments fileID (Attachments kpi)) as [[|] name] eqn:Hscan;
    simpl; [|congruence].
  exec_step. destruct r as [err|]; simpl; [frame|].
  lazymatch goal with H : exists k, view Background w0 !! kpiID = Some k /\ _ |- _ =>
    destruct H as (k1 & Hk1 & Hl1 & Hc1 & _) end.
  simpl in *.
  assert (Hj1 : collection w1 !! j = Some k).
  { rewrite Hc1. eapply insert_live_keeps; eauto; congruence. }
  assert (Hl1' : exists k1', collection w1 !! kpiID = Some k1' /\ IsDeleted k1' = false).
  { rewrite Hc1, lookup_insert_eq. eauto. }
  destruct Hl1' as (k1' & Hk1' & Hlive1').
  exec_step. destruct r as [err|]; simpl; [|congruence].
  exec_step. destruct r as [rollbackErr|]; simpl.
  { frame. }
  lazymatch goal with H : exists k, view Background w2 !! kpiID = Some k /\ _ |- _ =>
    destruct H as (k2 & Hk2 & Hl2 & Hc2 & _) end.
  simpl in *. rewrite Hc2. eapply insert_live_keeps; eauto; congruence.
Qed.

(** X9.  A soft-deleted record is never changed by an upload, a delete
    of an attachment or a transfer, whatever their arguments and
    whatever fails: after the call the collection holds the very same
    record under its id. *)
Theorem soft_deleted_records_untouched w j k :
  collection w !! j = Some k -> IsDeleted k = true ->
  (forall kpiID filename data by_ ct,
     collection (final (services.UploadAttachment kpiID filename data by_ ct w)) !! j
     = Some k)
  /\ (forall kpiID fileID by_,
        collection (final (services.DeleteAttachment kpiID fileID by_ w)) !! j = Some k)
  /\ (forall fromKPIID toKPIID fileID by_,
        collection
          (final (services.TransferAttachmentBetweenKPIs fromKPIID toKPIID fileID by_ w))
          !! j = Some k).
Proof.
  intros Hj Hd. split; [|split].
  - intros kpiID filename data by_ ct.
    pose proof (upload_run w kpiID filename data by_ ct) as H. cbv zeta in H.
    destruct (value (services.UploadAttachment kpiID filename data by_ ct w))
      as [a|e].
    + destruct H as (_ & _ & _ & k0 & k' & Hk0 & Hl & Hc & _).
      rewrite Hc. eapply insert_live_keeps; eauto.
    + by rewrite H.
  - intros. by apply delete_keeps_soft_deleted.
  - intros fromKPIID toKPIID fileID by_.
    destruct (transfer_run w fromKPIID toKPIID fileID by_) as [_ H].
    destruct (value (services.TransferAttachmentBetweenKPIs fromKPIID toKPIID fileID by_ w)).
    + by rewrite H.
    + destruct H as (_ & src & src' & dst & dst' & a & Hs & Hls & _ & _ & Hdst & Hld
                     & _ & Hc).
      rewrite Hc.
      eapply insert_live_keeps; eauto.
      eapply insert_live_keeps; eauto.
Qed.

Lemma soft_deleted_records_untouched_witness :
  collection (final (services.TransferAttachmentBetweenKPIs 1 2 7 "bob"
                       examples.transfer_to_deleted)) !! 2%N
  = Some (examples.kpi 2 0 [] true)
  /\ collection (final (services.UploadAttachment 2 "a.pdf" "data" "bob" "text/plain"
                          examples.transfer_to_deleted)) !! 2%N
     = Some (examples.kpi 2 0 [] true).
Proof.
  destruct (soft_deleted_records_untouched examples.transfer_to_deleted 2
              (examples.kpi 2 0 [] true)) as (Hu & _ & Ht).
  - reflexivity.
  - reflexivity.
  - split; [apply Ht | apply Hu].
Defined.

(** ** Soft delete, create and the reads *)

Lemma SoftDelete_rejected id by_ w :
  (forall k, collection w !! id = Some k -> IsDeleted k = true) ->
  let r := services.SoftDeleteKPI id by_ w in
  (exists e, value r = Some e)
  /\ collection (final r) = collection w
  /\ (faults w = [] ->
      value r = Some ("no document found with id " +:+ Hex id +:+ " or already deleted")).
Proof.
  intros Hgone r. subst r. unfold services.SoftDeleteKPI.
  destruct (repository.SoftDelete Background id by_ w) as [[err w1] t] eqn:E.
  pose proof E as E'. apply SoftDelete_spec in E' as (-> & _ & H).
  unfold value, final. simpl. destruct err as [e|].
  - split; [eauto|]. split; [by destruct H|].
    intros Hf. revert E.
    unfold repository.SoftDelete, UpdateOne, bind, ret, emit, Now, driver_call. simpl.
    rewrite Hf. simpl.
    destruct (collection w !! id) as [k|] eqn:Hk; simpl.
    + rewrite (Hgone k eq_refl). simpl. by intros [= <- _].
    + by intros [= <- _].
  - destruct H as (k & Hk & Hl & _). simpl in Hk. rewrite (Hgone k Hk) in Hl. done.
Qed.

(** X10.  A soft delete that returns no error has found the record live
    and has set its [is_deleted] flag and the author of the change,
    keeping every other field, the attachments included, and the bucket.
    After it, a second soft delete of the same record fails and changes
    nothing; when the driver works, its error says the record is not
    found or already deleted.  On a live record, and when the driver
    works, the first soft delete does succeed. *)
Theorem soft_delete_once w id by_ :
  let r := services.SoftDeleteKPI id by_ w in
  (value r = None ->
   (exists k k',
      collection w !! id = Some k /\ IsDeleted k = false
      /\ collection (final r) = <[id := k']> (collection w)
      /\ IsDeleted k' = true
      /\ UpdatedBy (KPIMetadata k') = by_
      /\ ID k' = ID k /\ Goal k' = Goal k /\ Description k' = Description k
      /\ DueDate k' = DueDate k /\ ActualPercent k' = ActualPercent k
      /\ Attachments k' = Attachments k
      /\ CreatedBy (KPIMetadata k') = CreatedBy (KPIMetadata k)
      /\ CreatedAt (KPIMetadata k') = CreatedAt (KPIMetadata k))
   /\ bucket (final r) = bucket w
   /\ forall by2,
        let r2 := services.SoftDeleteKPI id by2 (final r) in
        (exists e, value r2 = Some e)
        /\ collection (final r2) = collection (final r)
        /\ (faults (final r) = [] ->
            value r2 = Some ("no document found with id " +:+ Hex id +:+
                             " or already deleted")))
  /\ (forall k, faults w = [] -> collection w !! id = Some k -> IsDeleted k = false ->
        value r = None).
Proof.
  intros r. subst r. split.
  - unfold services.SoftDeleteKPI.
    destruct (repository.SoftDelete Background id by_ w) as [[err w1] t] eqn:E.
    apply SoftDelete_spec in E as (-> & Hb & H).
    unfold value, final. simpl. intros ->.
    destruct H as (k & Hk & Hl & Hc & _). simpl in Hk, Hc.
    split; [|split; [done|]].
    + exists k, (set_Metadata (set_updated by_ (clock w) (KPIMetadata k))
                   (set_IsDeleted true k)).
      repeat split; done.
    + intros by2. apply SoftDelete_rejected.
      intros k0. rewrite Hc, lookup_insert_eq. by intros [= <-].
  - intros k Hf Hk Hl.
    unfold services.SoftDeleteKPI, repository.SoftDelete, UpdateOne,
      bind, ret, emit, Now, driver_call, value. simpl.
    rewrite Hf. simpl. rewrite Hk. simpl. rewrite Hl. done.
Qed.

Lemma soft_delete_once_witness :
  let r := services.SoftDeleteKPI 1 "bob" examples.at_forty in
  value r = None
  /\ value (services.SoftDeleteKPI 1 "eve" (final r))
     = Some ("no document found with id 000000000000000000000001" +:+
             " or already deleted").
Proof.
  intros r.
  destruct (soft_delete_once examples.at_forty 1 "bob") as [Heff Hex].
  assert (Hv : value r = None).
  { apply (Hex (examples.kpi 1 40 [examples.cv] false)); reflexivity. }
  destruct (Heff Hv) as (_ & _ & Hagain).
  destruct (Hagain "eve") as (_ & _ & Hmsg).
  split; [exact Hv|]. apply Hmsg. reflexivity.
Defined.

(** Every run of a create. *)
Lemma CreateKPI_run w kpi :
  let r := services.CreateKPI kpi w in
  match value r with
  | inr _ => final r = with_faults (faults (final r))
                         (with_clock (clock w + 1) (with_next_oid (next_oid w + 1)%N w))
  | inl k =>
      ID k = next_oid w /\ IsDeleted k = false
      /\ CreatedAt (KPIMetadata k) = clock w /\ UpdatedAt (KPIMetadata k) = clock w
      /\ CreatedBy (KPIMetadata k) = CreatedBy (KPIMetadata kpi)
      /\ UpdatedBy (KPIMetadata k) = UpdatedBy (KPIMetadata kpi)
      /\ Goal k = Goal kpi /\ Description k = Description kpi
      /\ DueDate k = DueDate kpi /\ ActualPercent k = ActualPercent kpi
      /\ Attachments k = Attachments kpi
      /\ collection (final r) = <[ID k := k]> (collection w)
      /\ bucket (final r) = bucket w
  end
  /\ (faults w = [] -> exists k, value r = inl k /\ faults (final r) = []).
Proof.
  intros r. subst r.
  unfold services.CreateKPI, repository.Create, InsertOne, bind, ret, emit, Now,
    NewObjectID, driver_call, value, final. simpl.
  destruct (faults w) as [|[e|] fs] eqn:Hf; simpl.
  all: split; try discriminate; try (by eauto); try (repeat split; done).
Qed.

(** X11.  A create that returns a record has given it the next object
    id, whatever id the input carried, the flag [is_deleted] false,
    whatever the input said, and the current time as creation and
    update time; it keeps the input's goal, description, due date,
    percent, attachments and authors; the record is stored under its
    id, and reading that id afterwards returns the same record when the
    driver works.  A create that returns an error has stored nothing.
    When the driver works, a create does return a record. *)
Theorem create_then_get w kpi :
  let r := services.CreateKPI kpi w in
  (forall k, value r = inl k ->
     ID k = next_oid w /\ IsDeleted k = false
     /\ CreatedAt (KPIMetadata k) = clock w /\ UpdatedAt (KPIMetadata k) = clock w
     /\ CreatedBy (KPIMetadata k) = CreatedBy (KPIMetadata kpi)
     /\ UpdatedBy (KPIMetadata k) = UpdatedBy (KPIMetadata kpi)
     /\ Goal k = Goal kpi /\ Description k = Description kpi
     /\ DueDate k = DueDate kpi /\ ActualPercent k = ActualPercent kpi
     /\ Attachments k = Attachments kpi
     /\ collection (final r) = <[ID k := k]> (collection w)
     /\ bucket (final r) = bucket w
     /\ (faults (final r) = [] -> value (services.GetKPIByID (ID k) (final r)) = inl k))
  /\ (forall e, value r = inr e -> collection (final r) = collection w)
  /\ (faults w = [] -> exists k, value r = inl k).
Proof.
  intros r. destruct (CreateKPI_run w kpi) as [H Hex]. fold r in H, Hex.
  split; [|split].
  - intros k Hk. rewrite Hk in H.
    destruct H as (? & ? & ? & ? & ? & ? & ? & ? & ? & ? & ? & Hc & ?).
    repeat (split; [done|]).
    intros Hf. unfold services.GetKPIByID.
    rewrite (GetByID_clean Background (ID k) (final r) k Hf); [done|].
    simpl. rewrite Hc. apply lookup_insert_eq.
  - intros e He. rewrite He in H. by rewrite H.
  - intros Hf. destruct (Hex Hf) as (k & Hk & _). eauto.
Qed.

Lemma create_then_get_witness :
  let r := services.CreateKPI examples.full_body examples.at_forty in
  exists k, value r = inl k /\ ID k = 100%N /\ IsDeleted k = false
            /\ value (services.GetKPIByID 100 (final r)) = inl k.
Proof.
  intros r.
  destruct (create_then_get examples.at_forty examples.full_body) as (Heff & _ & Hex).
  destruct (Hex eq_refl) as [k Hk].
  destruct (Heff k Hk) as (Hid & Hdel & _ & _ & _ & _ & _ & _ & _ & _ & _ & _ & _ & Hget).
  exists k. split; [exact Hk|]. split; [exact Hid|]. split; [exact Hdel|].
  rewrite <- Hid at 1. apply Hget. reflexivity.
Defined.

Lemma GetAll_clean w :
  faults w = [] ->
  services.GetAllKPIs w = (inl (map snd (map_to_list (collection w))), w, []).
Proof.
  intros Hf. unfold services.GetAllKPIs, repository.GetAll, bind, ret, driver_call.
  rewrite Hf. simpl. rewrite Hf. done.
Qed.

Lemma GetAll_lists (m : gmap N KPIDevelopment) k :
  In k (map snd (map_to_list m)) <-> exists id, m !! id = Some k.
Proof.
  rewrite in_map_iff. split.
  - intros ([id k'] & <- & Hin). exists id.
    by apply elem_of_map_to_list, list_elem_of_In.
  - intros (id & Hid). exists (id, k). split; [done|].
    by apply list_elem_of_In, elem_of_map_to_list.
Qed.

(** X12.  The reads do not look at [is_deleted]: after a soft delete
    that succeeded, and when the driver works, reading the record by its
    id still returns it, flagged as deleted, and the listing of all
    records still contains it. *)
Theorem soft_deleted_still_read w id by_ :
  let r := services.SoftDeleteKPI id by_ w in
  value r = None -> faults (final r) = [] ->
  exists k,
    IsDeleted k = true
    /\ value (services.GetKPIByID id (final r)) = inl k
    /\ exists l, value (services.GetAllKPIs (final r)) = inl l /\ In k l.
Proof.
  intros r. subst r. unfold services.SoftDeleteKPI.
  destruct (repository.SoftDelete Background id by_ w) as [[err w1] t] eqn:E.
  apply SoftDelete_spec in E as (-> & Hb & H).
  unfold value, final. simpl. intros -> Hf.
  destruct H as (k & Hk & Hl & Hc & _). simpl in Hk, Hc.
  set (k' := set_Metadata (set_updated by_ (clock w) (KPIMetadata k))
               (set_IsDeleted true k)) in *.
  assert (Hk' : collection w1 !! id = Some k') by (rewrite Hc; apply lookup_insert_eq).
  exists k'. split; [done|]. split.
  - unfold services.GetKPIByID. by rewrite (GetByID_clean Background id w1 k' Hf Hk').
  - rewrite (GetAll_clean w1 Hf). eexists. split; [done|].
    apply GetAll_lists. eauto.
Qed.

Lemma soft_deleted_still_read_witness :
  let r := services.SoftDeleteKPI 1 "bob" examples.at_forty in
  exists k, IsDeleted k = true
            /\ value (services.GetKPIByID 1 (final r)) = inl k.
Proof.
  intros r.
  destruct (soft_deleted_still_read examples.at_forty 1 "bob") as (k & Hd & Hg & _).
  - reflexivity.
  - reflexivity.
  - exists k. split; [exact Hd | exact Hg].
Defined.

(** X13.  An update of an id that is not stored fails and stores
    nothing: there is no upsert.  The collection and the bucket are as
    before, and when the driver works the error is the driver's "no
    documents in result". *)
Theorem update_missing_record w id kpi :
  collection w !! id = None ->
  let r := services.UpdateKPI id kpi w in
  (exists e, value r = inr e)
  /\ collection (final r) = collection w
  /\ bucket (final r) = bucket w
  /\ (faults w = [] -> value r = inr ErrNoDocuments).
Proof.
  intros Hnone r.
  destruct (UpdateKPI_spec w id kpi) as [Hb H]. fold r in Hb, H.
  destruct (value r) as [k|e] eqn:Hv.
  - destruct H as (old & Hold & _). congruence.
  - split; [eauto|]. split; [done|]. split; [done|].
    intros Hf. subst r. revert Hv.
    unfold services.UpdateKPI, bind, value.
    rewrite (GetByID_missing Background id w Hf Hnone). simpl. done.
Qed.

Lemma update_missing_record_witness :
  let r := services.UpdateKPI 5 examples.full_body examples.at_forty in
  value r = inr "mongo: no documents in result"
  /\ collection (final r) = collection examples.at_forty.
Proof.
  intros r.
  destruct (update_missing_record examples.at_forty 5 examples.full_body)
    as (_ & Hc & _ & Hv).
  - reflexivity.
  - split; [exact (Hv eq_refl) | exact Hc].
Defined.

(** * Further properties of the aggregation *)

Section Totals.
Import analytics.


Lemma sumZ_perm {A} (f : A -> Z) l1 l2 : Permutation l1 l2 -> sumZ f l1 = sumZ f l2.
Proof. induction 1; simpl; lia. Qed.

Lemma sumZ_map {A B} (f : B -> Z) (g : A -> B) l :
  sumZ f (map g l) = sumZ (fun x => f (g x)) l.
Proof. induction l as [|x l IH]; simpl; [done|]. by rewrite IH. Qed.



(** Every record adds one to the counts and its attachments to the
    totals, in one group. *)
Lemma group_add_totals now k gs :
  sumZ g_count (group_add now k gs) = sumZ g_count gs + 1
  /\ sumZ g_total_attachments (group_add now k gs)
     = sumZ g_total_attachments gs + attachments_count k.
Proof.
  induction gs as [|g gs [IH1 IH2]]; simpl; [lia|].
  destruct (String.eqb (g_id g) (status k)); simpl; lia.
Qed.

Lemma group_stage_totals now docs :
  sumZ g_count (group_stage now docs) = Z.of_nat (length docs)
  /\ sumZ g_total_attachments (group_stage now docs) = sumZ attachments_count docs.
Proof.
  unfold group_stage.
  assert (forall gs,
    sumZ g_count (fold_left (fun gs k => group_add now k gs) docs gs)
    = sumZ g_count gs + Z.of_nat (length docs)
    /\ sumZ g_total_attachments (fold_left (fun gs k => group_add now k gs) docs gs)
       = sumZ g_total_attachments gs + sumZ attachments_count docs) as H.
  { induction docs as [|k docs IH]; intros gs; simpl; [lia|].
    destruct (IH (group_add now k gs)) as [-> ->].
    destruct (group_add_totals now k gs) as [-> ->]. lia. }
  destruct (H []) as [-> ->]. simpl. lia.
Qed.




Lemma status_label k : In (status k) labels.
Proof.
  rewrite status_cases. unfold labels.
  repeat (destruct (_ >=? _); [simpl; tauto|]). simpl. tauto.
Qed.

Variable group_order : list Bucket -> list Bucket.
Hypothesis group_order_perm : forall l, Permutation (group_order l) l.
Variable now : Time.

Lemma pipeline_perm docs :
  Permutation (pipeline group_order now docs)
    (map finish (group_stage now (match_stage docs))).
Proof.
  unfold pipeline, sort_stage. rewrite merge_sort_Permutation. apply group_order_perm.
Qed.

(** X14.  The aggregation loses and invents nothing: the counts of its
    buckets add up to the number of records that are not deleted, and
    their attachment totals to the number of attachments these records
    hold. *)
Theorem aggregation_conserves docs :
  sumZ count (pipeline group_order now docs) = Z.of_nat (length (match_stage docs))
  /\ sumZ total_attachments (pipeline group_order now docs)
     = sumZ attachments_count (match_stage docs).
Proof.
  rewrite !(sumZ_perm _ _ _ (pipeline_perm docs)), !sumZ_map. simpl.
  apply group_stage_totals.
Qed.

(** X15.  The labels of the buckets are pairwise different and each is
    one of the five statuses, so there are at most five buckets; and
    the result is empty exactly when no record is left after the
    deleted ones are set aside. *)
Theorem aggregation_labels docs :
  NoDup (map id_ (pipeline group_order now docs))
  /\ (forall b, In b (pipeline group_order now docs) -> In (id_ b) labels)
  /\ (length (pipeline group_order now docs) <= 5)%nat
  /\ (pipeline group_order now docs = [] <-> match_stage docs = []).
Proof.
  assert (Hnd : NoDup (map id_ (pipeline group_order now docs))).
  { rewrite (pipeline_perm docs), map_map. simpl.
    apply (group_stage_inv now (match_stage docs)). }
  assert (Hlab : forall b, In b (pipeline group_order now docs) -> In (id_ b) labels).
  { intros b Hb. apply (pipeline_In group_order group_order_perm) in Hb as (g & Hg & ->).
    simpl. destruct (group_stage_inv now (match_stage docs)) as (_ & Hc & _).
    destruct (Hc g Hg) as [Hm Hpos].
    unfold members in Hm.
    destruct (filter (fun k => status k = g_id g) (match_stage docs)) as [|k l] eqn:E.
    { simpl in Hm. lia. }
    assert (k ∈ filter (fun k => status k = g_id g) (match_stage docs)) as Hk
      by (rewrite E; left).
    apply list_elem_of_filter in Hk as [<- _]. apply status_label. }
  split; [done|]. split; [done|]. split.
  - rewrite <- (length_map id_).
    change 5%nat with (length labels).
    apply NoDup_incl_length; [by apply NoDup_ListNoDup|].
    intros s Hs. apply in_map_iff in Hs as (b & <- & Hb). auto.
  - pose proof (pipeline_perm docs) as Hp. split.
    + intros E. rewrite E in Hp. apply Permutation_nil in Hp.
      destruct (match_stage docs) as [|k l] eqn:Em; [done|].
      destruct (group_stage_inv now (k :: l)) as (_ & _ & Hall).
      specialize (Hall k (or_introl eq_refl)).
      apply map_eq_nil in Hp. rewrite Hp in Hall. destruct Hall.
    + intros E. rewrite E in Hp. simpl in Hp. by apply Permutation_nil_r in Hp.
Qed.

End Totals.

Lemma aggregation_conserves_witness :
  sumZ analytics.count (analytics.pipeline (@rev _) 2000 examples.three_records) = 3
  /\ sumZ analytics.total_attachments
       (analytics.pipeline (@rev _) 2000 examples.three_records) = 1.
Proof.
  apply (aggregation_conserves (@rev _)
           (fun l => Permutation_sym (Permutation_rev l)) 2000 examples.three_records).
Defined.

Lemma aggregation_labels_witness :
  NoDup (map analytics.id_ (analytics.pipeline (@rev _) 2000 examples.boundary_records))
  /\ (length (analytics.pipeline (@rev _) 2000 examples.boundary_records) <= 5)%nat.
Proof.
  destruct (aggregation_labels (@rev _)
              (fun l => Permutation_sym (Permutation_rev l)) 2000
              examples.boundary_records) as (Hn & _ & Hl & _).
  split; [exact Hn | exact Hl].
Defined.


(** * Properties of the end points *)


(** X17.  An identifier that is not made of 24 hexadecimal digits is
    turned away with status 400 by every end point that takes one, as
    record id or as file id, before any store is called. *)
Theorem malformed_ids_rejected id w :
  ObjectIDFromHex id = None ->
  turned_away 400 w (handlers.GetKPIByID id w)
  /\ (forall body u, turned_away 400 w (handlers.UpdateKPI id body u w))
  /\ (forall u, turned_away 400 w (handlers.DeleteKPI id u w))
  /\ (forall form u, turned_away 400 w (handlers.UploadAttachment form id u w))
  /\ turned_away 400 w (handlers.DownloadAttachment id w)
  /\ (forall other u, turned_away 400 w (handlers.DeleteAttachment id other u w))
  /\ (forall kpiID u, turned_away 400 w (handlers.DeleteAttachment kpiID id u w)).
Proof.
  intros Hid. unfold turned_away.
  split; [|split; [|split; [|split; [|split; [|split]]]]].
  - unfold handlers.GetKPIByID. rewrite Hid. done.
  - intros. unfold handlers.UpdateKPI. rewrite Hid. done.
  - intros. unfold handlers.DeleteKPI. rewrite Hid. done.
  - intros form u. unfold handlers.UploadAttachment. destruct form as [file|]; [|done].
    rewrite Hid. done.
  - unfold handlers.DownloadAttachment. rewrite Hid. done.
  - intros. unfold handlers.DeleteAttachment. rewrite Hid. done.
  - intros kpiID u. unfold handlers.DeleteAttachment.
    destruct (ObjectIDFromHex kpiID); [|done]. rewrite Hid. done.
Qed.

Lemma malformed_ids_rejected_witness :
  turned_away 400 examples.at_forty
    (handlers.DeleteAttachment "000000000000000000000001" "not-an-object-id" "bob"
       examples.at_forty)
  /\ turned_away 400 examples.at_forty
       (handlers.GetKPIByID "not-an-object-id" examples.at_forty).
Proof.
  destruct (malformed_ids_rejected "not-an-object-id" examples.at_forty)
    as (Hg & _ & _ & _ & _ & _ & Hd).
  - reflexivity.
  - split; [apply Hd | exact Hg].
Defined.





(** X20.  A file part that declares more than 10 MB is turned away with
    status 400 before any store is called.  Otherwise, on a live record
    and when the driver works, the upload end point answers with the
    reference under the next object id, and the download end point,
    asked for that id, streams back the very bytes with their length,
    the file name in the content disposition, and the content type the
    part declared, or "application/octet-stream" when it declared
    none. *)
Theorem handler_upload_download w id kpiID k header username :
  ObjectIDFromHex id = Some kpiID ->
  let u := handlers.UploadAttachment (Some (Some header)) id username w in
  (handlers.MaxFileSize < handlers.HeaderSize header -> turned_away 400 w u)
  /\ (faults w = [] -> collection w !! kpiID = Some k -> IsDeleted k = false ->
      handlers.HeaderSize header <= handlers.MaxFileSize ->
      value u = handlers.Data 200 "File uploaded successfully"
                  (handlers.AttachmentData
                     {| FileID := next_oid w;
                        Filename := handlers.HeaderFilename header |})
      /\ forall fileIDStr, ObjectIDFromHex fileIDStr = Some (next_oid w) ->
           value (handlers.DownloadAttachment fileIDStr (final u))
           = handlers.FileStream
               ("attachment; filename=" +:+ handlers.quote +:+
                handlers.HeaderFilename header +:+ handlers.quote)
               (if String.eqb (handlers.HeaderContentType header) ""
                then "application/octet-stream"
                else handlers.HeaderContentType header)
               (Z.of_nat (String.length (handlers.FileBytes header)))
               (handlers.FileBytes header)).
Proof.
  intros Hid u. subst u. unfold handlers.UploadAttachment. rewrite Hid. split.
  - intros Hbig. apply Z.ltb_lt in Hbig. rewrite Hbig. done.
  - intros Hf Hk Hlive Hsize.
    apply Z.ltb_ge in Hsize. rewrite Hsize.
    set (ct := if String.eqb (handlers.HeaderContentType header) ""
               then "application/octet-stream"
               else handlers.HeaderContentType header).
    assert (Hct : String.eqb ct "" = false).
    { subst ct. destruct (String.eqb (handlers.HeaderContentType header) "") eqn:E; done. }
    unfold bind.
    rewrite (UploadAttachment_clean w kpiID k _ _ username ct Hf Hk Hlive).
    simpl. split; [done|].
    intros fileIDStr Hfile. unfold handlers.DownloadAttachment. rewrite Hfile.
    unfold bind, services.DownloadAttachment.
    erewrite DownloadFile_present; [|done|simpl; apply lookup_insert_eq].
    simpl. rewrite Hct. done.
Qed.

Lemma handler_upload_download_witness :
  let u := handlers.UploadAttachment (Some (Some examples.notes))
             "000000000000000000000001" "bob" examples.at_forty in
  value (handlers.DownloadAttachment "000000000000000000000064" (final u))
  = handlers.FileStream ("attachment; filename=" +:+ handlers.quote +:+ "notes.txt"
                         +:+ handlers.quote)
      "application/octet-stream" 5 "hello".
Proof.
  intros u.
  destruct (handler_upload_download examples.at_forty "000000000000000000000001" 1
              (examples.kpi 1 40 [examples.cv] false) examples.notes "bob")
    as [_ Hround].
  - reflexivity.
  - destruct Hround as [_ Hd]; [reflexivity | reflexivity | reflexivity | |].
    + vm_compute. discriminate.
    + apply (Hd "000000000000000000000064"). reflexivity.
Defined.

(** ** The JWT middleware *)

Lemma substring_all s : String.substring 0 (String.length s) s = s.
Proof. induction s as [|c s IH]; simpl; [done|]. by rewrite IH. Qed.

Lemma substring_drop p s :
  String.substring (String.length p)
    (String.length (p +:+ s) - String.length p) (p +:+ s) = s.
Proof.
  induction p as [|c p IH].
  - change ("" +:+ s) with s. simpl. rewrite Nat.sub_0_r. apply substring_all.
  - change (String c p +:+ s) with (String c (p +:+ s)). simpl. exact IH.
Qed.

Lemma prefix_append p s : String.prefix p (p +:+ s) = true.
Proof.
  apply String.prefix_correct.
  induction p as [|c p IH].
  - change ("" +:+ s) with s. by destruct s.
  - change (String c p +:+ s) with (String c (p +:+ s)). simpl. by rewrite IH.
Qed.

Lemma append_longer p s : p <> "" -> s <> p +:+ s.
Proof.
  intros Hp H. apply (f_equal String.length) in H.
  assert (String.length (p +:+ s) = (String.length p + String.length s)%nat) as E.
  { clear. induction p as [|c p IH]; [done|].
    change (String c p +:+ s) with (String c (p +:+ s)). simpl. by rewrite IH. }
  rewrite E in H. destruct p; [done|]. simpl in H. lia.
Qed.

(** Trimming a prefix that is there gives the rest. *)
Lemma TrimPrefix_append p s : middlewares.TrimPrefix (p +:+ s) p = s.
Proof.
  unfold middlewares.TrimPrefix. rewrite prefix_append. apply substring_drop.
Qed.

(** X21.  The middleware lets a request through only with a header
    "Bearer " followed by a token that parses and is valid: then the
    answer, the stores and the calls are exactly those of the handler
    behind it, run for the user name of the token's claims.  In every
    other case (no header, another scheme, a token that does not parse
    or is not valid) the answer has status 401, and the handler is not
    run: no store is called. *)
Theorem middleware_guards ParseWithClaims jwtSecret next authHeader w :
  let r := middlewares.JWTMiddleware ParseWithClaims jwtSecret next authHeader w in
  (String.prefix "Bearer " authHeader = false -> turned_away 401 w r)
  /\ (forall tokenString, authHeader = "Bearer " +:+ tokenString ->
        match ParseWithClaims tokenString jwtSecret with
        | inl (true, Username) => r = next Username w
        | _ => turned_away 401 w r
        end).
Proof.
  intros r. subst r. unfold middlewares.JWTMiddleware. split.
  - intros Hp. unfold middlewares.TrimPrefix. rewrite Hp, String.eqb_refl.
    by destruct (String.eqb authHeader "").
  - intros tokenString ->. rewrite TrimPrefix_append.
    change (String.eqb ("Bearer " +:+ tokenString) "") with false. cbv iota.
    assert (String.eqb tokenString ("Bearer " +:+ tokenString) = false) as ->.
    { apply String.eqb_neq. by apply append_longer. }
    destruct (ParseWithClaims tokenString jwtSecret) as [[[|] Username]|e]; done.
Qed.

Lemma middleware_guards_witness :
  middlewares.JWTMiddleware examples.toy_parser "secret"
    (handlers.DeleteKPI "000000000000000000000001") "Bearer good" examples.at_forty
  = handlers.DeleteKPI "000000000000000000000001" "ann" examples.at_forty
  /\ turned_away 401 examples.at_forty
       (middlewares.JWTMiddleware examples.toy_parser "secret"
          (handlers.DeleteKPI "000000000000000000000001") "Basic good"
          examples.at_forty).
Proof.
  split.
  - destruct (middleware_guards examples.toy_parser "secret"
                (handlers.DeleteKPI "000000000000000000000001") "Bearer good"
                examples.at_forty) as [_ H].
    exact (H "good" eq_refl).
  - destruct (middleware_guards examples.toy_parser "secret"
                (handlers.DeleteKPI "000000000000000000000001") "Basic good"
                examples.at_forty) as [H _].
    apply H. reflexivity.
Defined.
